(** * amigasd: parallel-port to SPI relay (AVR) and spisd.device front end (Amiga)

    Shallow embedding of [avr/main.c] (the relay controller firmware) and of
    [amiga/source/device.c] (the block-device front end and the disk-change
    interrupt), with the properties of the specification settled on it. *)

From Stdlib Require Import ZArith List Bool Lia Btauto.
Import ListNotations.
Local Open Scope Z_scope.

(** ** Machine integers and C truth values *)

Definition u8 (v : Z) : Z := v mod 256.
Definition u16 (v : Z) : Z := v mod 65536.
Definition u32 (v : Z) : Z := v mod 4294967296.

(** [tst v m] is the C condition [v & m] (nonzero is true). *)
Definition tst (v m : Z) : bool := negb (Z.land v m =? 0).

(** * Part I: the relay controller, [avr/main.c] *)

Module Avr.

(** Port B: SPI and card detect. *)
Definition SCK_BIT : Z := 5.
Definition MISO_BIT : Z := 4.
Definition MOSI_BIT : Z := 3.
Definition SS_BIT : Z := 2.
Definition CD_BIT : Z := 0.
Definition ACK_BIT : Z := 1.

(** Port D: parallel port control lines. *)
Definition IDLE_BIT : Z := 4.
Definition CLOCK_BIT : Z := 5.

(** Bit positions of [avr/io.h] for the ATmega328P. *)
Definition SPE : Z := 6.
Definition MSTR : Z := 4.
Definition SPR1 : Z := 1.
Definition SPR0 : Z := 0.
Definition SPIF : Z := 7.
Definition SPI2X : Z := 0.

Definition bit (n : Z) : Z := Z.shiftl 1 n.

(** What the firmware reads on its input pins at one instant: port C carries
    D0..D5, port D carries D6, D7, the clock (PD5) and the idle line (PD4). *)
Record pins : Type := mkPins { PINC : Z; PIND : Z }.

(** Writes to the output registers of ports C and D, in program order. *)
Inductive event : Type :=
| W_PORTC (v : Z)
| W_DDRC (v : Z)
| W_PORTD (v : Z)
| W_DDRD (v : Z).

(** The state of the controller.  [cur] is the present level of the input
    pins and [future] the levels the host will drive afterwards, in time
    order; time only advances while the firmware polls the clock line.
    [miso_n] counts the SPI exchanges started so far, [SPDR] holds the byte
    last shifted in, [mosi] the bytes shifted out, [trace] the port writes. *)
Record avr : Type := mkAvr {
  PORTB : Z; DDRB : Z;
  PORTC : Z; DDRC : Z;
  PORTD : Z; DDRD : Z;
  SPCR : Z; SPSR : Z; SPDR : Z;
  pin_c : Z; pin_d : Z;
  next_port_d : Z; next_port_c : Z;
  byte_count : Z;
  cur : pins; future : list pins;
  miso_n : nat; mosi : list Z;
  trace : list event
}.

Definition set_PORTB v s := mkAvr v (DDRB s) (PORTC s) (DDRC s) (PORTD s) (DDRD s)
  (SPCR s) (SPSR s) (SPDR s) (pin_c s) (pin_d s) (next_port_d s) (next_port_c s)
  (byte_count s) (cur s) (future s) (miso_n s) (mosi s) (trace s).
Definition set_PORTC v s := mkAvr (PORTB s) (DDRB s) v (DDRC s) (PORTD s) (DDRD s)
  (SPCR s) (SPSR s) (SPDR s) (pin_c s) (pin_d s) (next_port_d s) (next_port_c s)
  (byte_count s) (cur s) (future s) (miso_n s) (mosi s) (trace s ++ [W_PORTC v]).
Definition set_DDRC v s := mkAvr (PORTB s) (DDRB s) (PORTC s) v (PORTD s) (DDRD s)
  (SPCR s) (SPSR s) (SPDR s) (pin_c s) (pin_d s) (next_port_d s) (next_port_c s)
  (byte_count s) (cur s) (future s) (miso_n s) (mosi s) (trace s ++ [W_DDRC v]).
Definition set_PORTD v s := mkAvr (PORTB s) (DDRB s) (PORTC s) (DDRC s) v (DDRD s)
  (SPCR s) (SPSR s) (SPDR s) (pin_c s) (pin_d s) (next_port_d s) (next_port_c s)
  (byte_count s) (cur s) (future s) (miso_n s) (mosi s) (trace s ++ [W_PORTD v]).
Definition set_DDRD v s := mkAvr (PORTB s) (DDRB s) (PORTC s) (DDRC s) (PORTD s) v
  (SPCR s) (SPSR s) (SPDR s) (pin_c s) (pin_d s) (next_port_d s) (next_port_c s)
  (byte_count s) (cur s) (future s) (miso_n s) (mosi s) (trace s ++ [W_DDRD v]).
Definition set_SPCR v s := mkAvr (PORTB s) (DDRB s) (PORTC s) (DDRC s) (PORTD s) (DDRD s)
  v (SPSR s) (SPDR s) (pin_c s) (pin_d s) (next_port_d s) (next_port_c s)
  (byte_count s) (cur s) (future s) (miso_n s) (mosi s) (trace s).
Definition set_pin_c v s := mkAvr (PORTB s) (DDRB s) (PORTC s) (DDRC s) (PORTD s) (DDRD s)
  (SPCR s) (SPSR s) (SPDR s) v (pin_d s) (next_port_d s) (next_port_c s)
  (byte_count s) (cur s) (future s) (miso_n s) (mosi s) (trace s).
Definition set_pin_d v s := mkAvr (PORTB s) (DDRB s) (PORTC s) (DDRC s) (PORTD s) (DDRD s)
  (SPCR s) (SPSR s) (SPDR s) (pin_c s) v (next_port_d s) (next_port_c s)
  (byte_count s) (cur s) (future s) (miso_n s) (mosi s) (trace s).
Definition set_next_port_d v s := mkAvr (PORTB s) (DDRB s) (PORTC s) (DDRC s) (PORTD s) (DDRD s)
  (SPCR s) (SPSR s) (SPDR s) (pin_c s) (pin_d s) v (next_port_c s)
  (byte_count s) (cur s) (future s) (miso_n s) (mosi s) (trace s).
Definition set_next_port_c v s := mkAvr (PORTB s) (DDRB s) (PORTC s) (DDRC s) (PORTD s) (DDRD s)
  (SPCR s) (SPSR s) (SPDR s) (pin_c s) (pin_d s) (next_port_d s) v
  (byte_count s) (cur s) (future s) (miso_n s) (mosi s) (trace s).
Definition set_byte_count v s := mkAvr (PORTB s) (DDRB s) (PORTC s) (DDRC s) (PORTD s) (DDRD s)
  (SPCR s) (SPSR s) (SPDR s) (pin_c s) (pin_d s) (next_port_d s) (next_port_c s)
  v (cur s) (future s) (miso_n s) (mosi s) (trace s).
Definition set_time (p : pins) (f : list pins) s := mkAvr (PORTB s) (DDRB s) (PORTC s) (DDRC s)
  (PORTD s) (DDRD s) (SPCR s) (SPSR s) (SPDR s) (pin_c s) (pin_d s) (next_port_d s)
  (next_port_c s) (byte_count s) p f (miso_n s) (mosi s) (trace s).

Section Firmware.

(** The card interface seen from the SPI master: the [n]-th exchange shifts
    in [miso n]. *)
Variable miso : nat -> Z.

(** [SPDR = v]: start an exchange.  The byte goes out on MOSI, the card's
    next byte is shifted in and the SPIF flag is raised on completion. *)
Definition write_SPDR (v : Z) (s : avr) : avr :=
  mkAvr (PORTB s) (DDRB s) (PORTC s) (DDRC s) (PORTD s) (DDRD s)
    (SPCR s) (Z.setbit (SPSR s) SPIF) (u8 (miso (miso_n s)))
    (pin_c s) (pin_d s) (next_port_d s) (next_port_c s) (byte_count s)
    (cur s) (future s) (S (miso_n s)) (mosi s ++ [v]) (trace s).

(** Reading [SPDR] after [SPSR] was read with SPIF set clears the flag. *)
Definition read_SPDR (s : avr) : Z * avr :=
  (SPDR s,
   mkAvr (PORTB s) (DDRB s) (PORTC s) (DDRC s) (PORTD s) (DDRD s)
    (SPCR s) (Z.clearbit (SPSR s) SPIF) (SPDR s)
    (pin_c s) (pin_d s) (next_port_d s) (next_port_c s) (byte_count s)
    (cur s) (future s) (miso_n s) (mosi s) (trace s)).

(** [while (!(SPSR & (1 << SPIF)));] ends at once when an exchange was
    started and never otherwise. *)
Definition wait_SPIF (s : avr) : option avr :=
  if tst (SPSR s) (bit SPIF) then Some s else None.

(** The polling loop
    [if (ref & (1 << CLOCK_BIT)) while (PIND & (1 << CLOCK_BIT));
     else while (!(PIND & (1 << CLOCK_BIT)));]
    keeps reading [PIND] while its clock bit has the level it has in [ref].
    [None]: the host never toggles the clock again. *)
Fixpoint spin (lvl : bool) (p : pins) (f : list pins) {struct f} : option (pins * list pins) :=
  if Bool.eqb (tst (PIND p) (bit CLOCK_BIT)) lvl then
    match f with
    | [] => None
    | q :: r => spin lvl q r
    end
  else Some (p, f).

Definition wait_clock (ref : Z) (s : avr) : option avr :=
  match spin (tst ref (bit CLOCK_BIT)) (cur s) (future s) with
  | Some (p, f) => Some (set_time p f s)
  | None => None
  end.

Inductive label : Type :=
| L_main_loop | L_do_read1 | L_do_read | L_read_loop
| L_do_write1 | L_do_write | L_write_loop.

(** Result of running one labelled block up to its [goto] (or to the next
    label it falls into): the target and the state, or [Hang] when a polling
    loop of the block never ends. *)
Inductive outcome : Type :=
| Goto (l : label) (s : avr)
| Hang.

Definition SPCR_slow : Z := Z.lor (Z.lor (Z.lor (bit SPE) (bit MSTR)) (bit SPR1)) (bit SPR0).
Definition SPCR_fast : Z := Z.lor (bit SPE) (bit MSTR).

Definition main_loop (s : avr) : outcome :=
  match wait_clock (PIND (cur s)) s with
  | None => Hang
  | Some s =>
    if negb (tst (PIND (cur s)) 0x80) then
      if tst (PIND (cur s)) 0x40 then Goto L_do_read1 s else Goto L_do_write1 s
    else
      let s := set_pin_c (PINC (cur s)) s in
      let s := set_pin_d (PIND (cur s)) s in
      if negb (tst (pin_d s) 0x40) then
        let s := set_byte_count (u16 (Z.shiftl (Z.land (pin_c s) 0x1F) 8)) s in
        match wait_clock (pin_d s) s with
        | None => Hang
        | Some s =>
          let s := set_pin_d (PIND (cur s)) s in
          let s := set_byte_count
                     (u16 (Z.lor (byte_count s)
                                 (Z.lor (Z.land (pin_d s) 0xC0) (PINC (cur s))))) s in
          if tst (pin_c s) 0x20 then Goto L_do_read s else Goto L_do_write s
        end
      else if Z.land (pin_c s) 0x3E =? 0 then
        if tst (pin_c s) 1 then Goto L_main_loop (set_SPCR SPCR_fast s)
        else Goto L_main_loop (set_SPCR SPCR_slow s)
      else Goto L_main_loop s
  end.

Definition do_read1 (s : avr) : outcome :=
  Goto L_do_read (set_byte_count (PINC (cur s)) s).

Definition do_read (s : avr) : outcome :=
  let s := write_SPDR 0xFF s in
  let s := set_pin_d (PIND (cur s)) s in
  let s := set_PORTD (Z.lor (Z.land (pin_d s) 0xC0) (bit IDLE_BIT)) s in
  let s := set_DDRD (Z.lor 0xC0 (bit IDLE_BIT)) s in
  let s := set_PORTC (Z.land (byte_count s) 0x3F) s in
  let s := set_DDRC 0x3F s in
  Goto L_read_loop s.

Definition read_loop (s : avr) : outcome :=
  match wait_SPIF s with
  | None => Hang
  | Some s =>
    let (v, s) := read_SPDR s in
    let s := set_next_port_c v s in
    let s := set_next_port_d (Z.lor (Z.land (next_port_c s) 0xC0) (bit IDLE_BIT)) s in
    match wait_clock (pin_d s) s with
    | None => Hang
    | Some s =>
      let s := set_PORTD (next_port_d s) s in
      let s := set_PORTC (next_port_c s) s in
      let s := set_pin_d (PIND (cur s)) s in
      if negb (byte_count s =? 0) then
        let s := set_byte_count (u16 (byte_count s - 1)) s in
        let s := write_SPDR 0xFF s in
        Goto L_read_loop s
      else
        match wait_clock (pin_d s) s with
        | None => Hang
        | Some s =>
          let s := set_DDRD (bit IDLE_BIT) s in
          let s := set_DDRC 0 s in
          let s := set_PORTD 0 s in
          let s := set_PORTC 0 s in
          Goto L_main_loop s
        end
    end
  end.

Definition do_write1 (s : avr) : outcome :=
  let s := set_byte_count (PINC (cur s)) s in
  let s := set_pin_d (PIND (cur s)) s in
  Goto L_do_write s.

Definition do_write (s : avr) : outcome :=
  Goto L_write_loop (set_PORTD (bit IDLE_BIT) s).

Definition write_loop (s : avr) : outcome :=
  match wait_clock (pin_d s) s with
  | None => Hang
  | Some s =>
    let s := set_pin_d (PIND (cur s)) s in
    let s := write_SPDR (u8 (Z.lor (Z.land (pin_d s) 0xC0) (PINC (cur s)))) s in
    match wait_SPIF s with
    | None => Hang
    | Some s =>
      let (_, s) := read_SPDR s in
      if negb (byte_count s =? 0) then
        Goto L_write_loop (set_byte_count (u16 (byte_count s - 1)) s)
      else
        Goto L_main_loop (set_PORTD 0 s)
    end
  end.

Definition block (l : label) (s : avr) : outcome :=
  match l with
  | L_main_loop => main_loop s
  | L_do_read1 => do_read1 s
  | L_do_read => do_read s
  | L_read_loop => read_loop s
  | L_do_write1 => do_write1 s
  | L_do_write => do_write s
  | L_write_loop => write_loop s
  end.

(** Result of running blocks until control is back at [main_loop]. *)
Inductive result : Type :=
| Done (s : avr)
| Stalled
| OutOfFuel.

Fixpoint run (fuel : nat) (l : label) (s : avr) : result :=
  match fuel with
  | O => OutOfFuel
  | S fuel =>
    match block l s with
    | Hang => Stalled
    | Goto L_main_loop s' => Done s'
    | Goto l' s' => run fuel l' s'
    end
  end.

End Firmware.

(** [ISR(PCINT0_vect)]: runs on every level change of PB0 (CD'), with
    [pinb] the value read from [PINB]. *)
Definition ISR_PCINT0 (pinb : Z) (s : avr) : avr :=
  if tst pinb (bit CD_BIT) then
    set_PORTB (Z.land (PORTB s) (Z.lnot (bit ACK_BIT))) s
  else
    set_PORTB (Z.lor (PORTB s) (bit ACK_BIT)) s.

(** The register set-up of [main] before [main_loop], from the reset state
    in which every I/O register is 0. *)
Definition main_init (p : pins) (f : list pins) : avr :=
  {| DDRB := Z.lor (Z.lor (Z.lor (bit SCK_BIT) (bit MOSI_BIT)) (bit SS_BIT)) (bit ACK_BIT);
     PORTB := Z.lor (bit SS_BIT) (bit CD_BIT);
     SPCR := SPCR_slow;
     SPSR := Z.lor 0 (bit SPI2X);
     SPDR := 0;
     DDRC := 0; PORTC := 0;
     DDRD := bit IDLE_BIT; PORTD := 0;
     pin_c := 0; pin_d := 0; next_port_d := 0; next_port_c := 0; byte_count := 0;
     cur := p; future := f; miso_n := 0; mosi := []; trace := [] |}.

(** The main program and the interrupt handler interleave: a tick is either
    one block of the main program or one run of the handler. *)
Inductive tick : Type :=
| T_main
| T_isr (pinb : Z).

Definition tick_step (miso : nat -> Z) (c : label * avr) (t : tick) : label * avr :=
  match t with
  | T_isr pinb => (fst c, ISR_PCINT0 pinb (snd c))
  | T_main =>
    match block miso (fst c) (snd c) with
    | Goto l s => (l, s)
    | Hang => c
    end
  end.

Definition ticks (miso : nat -> Z) (c : label * avr) (ts : list tick) : label * avr :=
  fold_left (tick_step miso) ts c.

(** *** Observations used by the statements *)

(** The byte the host presents on D0..D7: D6, D7 on port D, D0..D5 on port C. *)
Definition bus_byte (p : pins) : Z :=
  Z.lor (Z.land (PIND p) 0xC0) (Z.land (PINC p) 0x3F).

(** Port C has the six lines PC0..PC5 and port D eight. *)
Definition wf_pins (p : pins) : Prop :=
  0 <= PINC p < 64 /\ 0 <= PIND p < 256.

Definition clk (v : Z) : bool := tst v (bit CLOCK_BIT).

(** Decoding of one frame header: [main_loop], and the block that loads the
    short count when the header is a single byte.  It ends at [do_read] or
    [do_write] (transfer phase), or back at [main_loop] (frame wait). *)
Definition header (s : avr) : outcome :=
  match main_loop s with
  | Goto L_do_read1 s' => do_read1 s'
  | Goto L_do_write1 s' => do_write1 s'
  | o => o
  end.

(** No port was written and no SPI exchange took place between [s] and [s']. *)
Definition quiet (s s' : avr) : Prop :=
  PORTB s' = PORTB s /\ PORTC s' = PORTC s /\ DDRC s' = DDRC s /\
  PORTD s' = PORTD s /\ DDRD s' = DDRD s /\
  trace s' = trace s /\ mosi s' = mosi s /\ miso_n s' = miso_n s.

(** Number of clock edges in a timeline, starting from level [lvl]. *)
Fixpoint edges (lvl : bool) (tl : list pins) : nat :=
  match tl with
  | [] => O
  | p :: r => if Bool.eqb (clk (PIND p)) lvl then edges lvl r else S (edges (clk (PIND p)) r)
  end.

(** The port writes that present one card byte to the host. *)
Definition present (b : Z) : list event :=
  [W_PORTD (Z.lor (Z.land b 0xC0) (bit IDLE_BIT)); W_PORTC b].

(** The bytes the card returns in exchanges [n], [n+1], ..., [n+k-1]. *)
Definition card_bytes (miso : nat -> Z) (n k : nat) : list Z :=
  map (fun i => u8 (miso i)) (seq n k).

(** Bytes put on port C while its six lines are driven (after [DDRC] was
    made nonzero), in order. *)
Fixpoint driven (out : bool) (tr : list event) : list Z :=
  match tr with
  | [] => []
  | W_DDRC v :: r => driven (negb (v =? 0)) r
  | W_PORTC v :: r => if out then v :: driven out r else driven out r
  | _ :: r => driven out r
  end.

(** The port writes that end a Read transfer. *)
Definition release : list event :=
  [W_DDRD (bit IDLE_BIT); W_DDRC 0; W_PORTD 0; W_PORTC 0].

(** The port writes of a whole Read transfer that presents [bytes]:
    [pind] is port D as read on entry and [c] the decoded count. *)
Definition read_events (pind c : Z) (bytes : list Z) : list event :=
  [W_PORTD (Z.lor (Z.land pind 0xC0) (bit IDLE_BIT)); W_DDRD (Z.lor 0xC0 (bit IDLE_BIT));
   W_PORTC (Z.land c 0x3F); W_DDRC 0x3F]
  ++ flat_map present bytes ++ release.

(** Both data buses released and the busy/idle line at its idle level. *)
Definition bus_idle (s : avr) : Prop :=
  DDRD s = bit IDLE_BIT /\ DDRC s = 0 /\ PORTD s = 0 /\ PORTC s = 0.

(** The frame shapes of the specification. *)
Inductive frame : Type :=
| ShortRead (count : Z)
| ShortWrite (count : Z)
| LongRead (count : Z)
| LongWrite (count : Z)
| ClockRate (fast : bool)
| Unrecognised.

(** The decoding algorithm in the words of the specification, section 4.1:
    the long header is told from the clock-rate command by bit 6 of the
    second byte. *)
Definition spec_frame_decoding (byte0 byte1 : Z) : frame :=
  if negb (Z.testbit byte0 7) then
    if Z.testbit byte0 6 then ShortRead (Z.land byte0 0x3F)
    else ShortWrite (Z.land byte0 0x3F)
  else if negb (Z.testbit byte1 6) then
    let count := Z.lor (Z.lor (Z.shiftl (Z.land byte0 0x1F) 8) (Z.land byte1 0xC0))
                       (Z.land byte1 0x3F) in
    if Z.testbit byte0 5 then LongRead count else LongWrite count
  else if Z.land byte0 0x3E =? 0 then ClockRate (Z.testbit byte0 0)
  else Unrecognised.

(** *** Further observations *)

(** The pin levels the firmware finds after each of the next [n] clock
    edges, and the time left after the last of them; [None] when the host
    stops toggling the clock before that. *)
Fixpoint sampled (n : nat) (lvl : bool) (p : pins) (f : list pins)
  : option (list pins * (pins * list pins)) :=
  match n with
  | O => Some ([], (p, f))
  | S n =>
    match spin lvl p f with
    | None => None
    | Some (p', f') =>
      match sampled n (clk (PIND p')) p' f' with
      | None => None
      | Some (ps, rest) => Some (p' :: ps, rest)
      end
    end
  end.

(** The byte [write_loop] hands to the SPI for one sample of the pins. *)
Definition host_byte (p : pins) : Z :=
  u8 (Z.lor (Z.land (PIND p) 0xC0) (PINC p)).

(** The interrupt handler applied to the result of a block. *)
Definition after_isr (pinb : Z) (o : outcome) : outcome :=
  match o with
  | Goto l s => Goto l (ISR_PCINT0 pinb s)
  | Hang => Hang
  end.

(** Who drives the shared lines at each label: the firmware drives the data
    lines in [read_loop] only, and signals busy on PD4 during both loops. *)
Definition lines_ok (l : label) (s : avr) : Prop :=
  match l with
  | L_read_loop =>
      DDRC s = 0x3F /\ DDRD s = Z.lor 0xC0 (bit IDLE_BIT) /\
      Z.testbit (PORTD s) IDLE_BIT = true
  | L_write_loop =>
      DDRC s = 0 /\ DDRD s = bit IDLE_BIT /\ PORTC s = 0 /\ PORTD s = bit IDLE_BIT
  | _ => bus_idle s
  end.

(** The SPI and port B set-up that [main] makes. *)
Definition spi_config_ok (s : avr) : Prop :=
  (SPCR s = SPCR_slow \/ SPCR s = SPCR_fast) /\
  DDRB s = Z.lor (Z.lor (Z.lor (bit SCK_BIT) (bit MOSI_BIT)) (bit SS_BIT)) (bit ACK_BIT) /\
  Z.land (PORTB s) (Z.lnot (bit ACK_BIT)) = Z.lor (bit SS_BIT) (bit CD_BIT).

(** A header byte that is a clock-rate command. *)
Definition rate_command (p : pins) : Prop :=
  Z.testbit (bus_byte p) 7 = true /\ Z.testbit (bus_byte p) 6 = true /\
  Z.land (bus_byte p) 0x3E = 0.

(** The rate a clock-rate command selects. *)
Definition rate_of (p : pins) : Z :=
  if Z.testbit (bus_byte p) 0 then SPCR_fast else SPCR_slow.

(** *** Port writes in time *)

(** An instant of the time line: the pin levels then and those still to
    come. *)
Definition instant : Type := (pins * list pins)%type.

Definition now (s : avr) : instant := (cur s, future s).

(** The instants right after each of the next [n] clock edges, as far as
    the host goes on toggling the clock. *)
Fixpoint instants (n : nat) (lvl : bool) (p : pins) (f : list pins) : list instant :=
  match n with
  | O => []
  | S n =>
    match spin lvl p f with
    | None => []
    | Some (p', f') => (p', f') :: instants n (clk (PIND p')) p' f'
    end
  end.

(** The controller together with the log of its port writes, each with the
    instant at which it was made. *)
Definition timed : Type := (avr * list (instant * event))%type.

(** Execute one statement: the port writes it makes are logged with the
    instant at which it is executed. *)
Definition stamp (f : avr -> avr) (t : timed) : timed :=
  let s := fst t in
  let s' := f s in
  (s', snd t ++ map (pair (now s)) (skipn (length (trace s)) (trace s'))).

(** Execute one polling loop, which may never end. *)
Definition stamp_wait (f : avr -> option avr) (t : timed) : option timed :=
  match f (fst t) with
  | Some s' => Some (stamp (fun _ => s') t)
  | None => None
  end.

Inductive timed_outcome : Type :=
| TGoto (l : label) (t : timed)
| THang.

Inductive timed_result : Type :=
| TDone (t : timed)
| TStalled
| TOutOfFuel.

(** [do_read], statement by statement. *)
Definition timed_do_read (miso : nat -> Z) (t : timed) : timed_outcome :=
  let t := stamp (write_SPDR miso 0xFF) t in
  let t := stamp (fun s => set_pin_d (PIND (cur s)) s) t in
  let t := stamp (fun s => set_PORTD (Z.lor (Z.land (pin_d s) 0xC0) (bit IDLE_BIT)) s) t in
  let t := stamp (set_DDRD (Z.lor 0xC0 (bit IDLE_BIT))) t in
  let t := stamp (fun s => set_PORTC (Z.land (byte_count s) 0x3F) s) t in
  let t := stamp (set_DDRC 0x3F) t in
  TGoto L_read_loop t.

(** [read_loop], statement by statement. *)
Definition timed_read_loop (miso : nat -> Z) (t : timed) : timed_outcome :=
  match stamp_wait wait_SPIF t with
  | None => THang
  | Some t =>
    let t := stamp (fun s => let (v, s) := read_SPDR s in set_next_port_c v s) t in
    let t := stamp (fun s =>
               set_next_port_d (Z.lor (Z.land (next_port_c s) 0xC0) (bit IDLE_BIT)) s) t in
    match stamp_wait (fun s => wait_clock (pin_d s) s) t with
    | None => THang
    | Some t =>
      let t := stamp (fun s => set_PORTD (next_port_d s) s) t in
      let t := stamp (fun s => set_PORTC (next_port_c s) s) t in
      let t := stamp (fun s => set_pin_d (PIND (cur s)) s) t in
      if negb (byte_count (fst t) =? 0) then
        let t := stamp (fun s => set_byte_count (u16 (byte_count s - 1)) s) t in
        let t := stamp (write_SPDR miso 0xFF) t in
        TGoto L_read_loop t
      else
        match stamp_wait (fun s => wait_clock (pin_d s) s) t with
        | None => THang
        | Some t =>
          let t := stamp (set_DDRD (bit IDLE_BIT)) t in
          let t := stamp (set_DDRC 0) t in
          let t := stamp (set_PORTD 0) t in
          let t := stamp (set_PORTC 0) t in
          TGoto L_main_loop t
        end
    end
  end.

(** The Read transfer phase, from [read_loop] and from [do_read], until
    control is back at [main_loop]. *)
Fixpoint timed_read_loops (miso : nat -> Z) (fuel : nat) (t : timed) : timed_result :=
  match fuel with
  | O => TOutOfFuel
  | S fuel =>
    match timed_read_loop miso t with
    | THang => TStalled
    | TGoto L_main_loop t' => TDone t'
    | TGoto _ t' => timed_read_loops miso fuel t'
    end
  end.

Definition timed_read_phase (miso : nat -> Z) (fuel : nat) (t : timed) : timed_result :=
  match fuel with
  | O => TOutOfFuel
  | S fuel =>
    match timed_do_read miso t with
    | THang => TStalled
    | TGoto L_main_loop t' => TDone t'
    | TGoto _ t' => timed_read_loops miso fuel t'
    end
  end.

(** A timed result without its log. *)
Definition untimed (r : timed_result) : result :=
  match r with
  | TDone t => Done (fst t)
  | TStalled => Stalled
  | TOutOfFuel => OutOfFuel
  end.

(** The port writes of [do_read] on entry. *)
Definition read_entry (pind c : Z) : list event :=
  [W_PORTD (Z.lor (Z.land pind 0xC0) (bit IDLE_BIT)); W_DDRD (Z.lor 0xC0 (bit IDLE_BIT));
   W_PORTC (Z.land c 0x3F); W_DDRC 0x3F].

(** The log of a Read transfer after entry: each byte is presented at one
    instant of [insts], in order, and the release is made at the instant that
    follows the last byte's. *)
Fixpoint read_log (insts : list instant) (bytes : list Z) : list (instant * event) :=
  match insts, bytes with
  | i :: insts', b :: bytes' => map (pair i) (present b) ++ read_log insts' bytes'
  | i :: _, [] => map (pair i) release
  | [], _ => []
  end.

End Avr.

(** * Part II: the host side, [amiga/source/device.c] *)

Module Device.

(** Constants of the AmigaOS headers [exec/io.h], [exec/errors.h],
    [exec/memory.h], [exec/devices.h] and [devices/trackdisk.h]. *)
Definition CMD_RESET : Z := 1.
Definition CMD_READ : Z := 2.
Definition CMD_WRITE : Z := 3.
Definition CMD_UPDATE : Z := 4.
Definition CMD_CLEAR : Z := 5.
Definition TD_MOTOR : Z := 9.
Definition TD_FORMAT : Z := 11.
Definition TD_REMOVE : Z := 12.
Definition TD_CHANGENUM : Z := 13.
Definition TD_CHANGESTATE : Z := 14.
Definition TD_PROTSTATUS : Z := 15.
Definition TD_GETDRIVETYPE : Z := 18.
Definition TD_ADDCHANGEINT : Z := 20.
Definition TD_REMCHANGEINT : Z := 21.
Definition TD_GETGEOMETRY : Z := 22.

Definition IOERR_OPENFAIL : Z := -1.
Definition IOERR_ABORTED : Z := -2.
Definition IOERR_NOCMD : Z := -3.
Definition TDERR_NotSpecified : Z := 20.
Definition TDERR_DiskChanged : Z := 29.

Definition IOF_QUICK : Z := 1.
Definition UNITF_ACTIVE : Z := 1.
Definition MEMF_PUBLIC : Z := 1.
Definition DG_DIRECT_ACCESS : Z := 0.
Definition DGF_REMOVABLE : Z := 1.

(** Pointers are addresses; [NULL] is 0. *)
Definition NULL : Z := 0.

Record IOStdReq : Type := mkIOStdReq {
  io_Unit : Z;
  io_Command : Z;
  io_Flags : Z;
  io_Error : Z;
  io_Actual : Z;
  io_Length : Z;
  io_Data : Z;
  io_Offset : Z
}.

Record Unit : Type := mkUnit { unit_flags : Z; unit_OpenCnt : Z }.

Record device_ctx_t : Type := mkCtx { device : Z; unit : Unit }.

Record DriveGeometry : Type := mkGeom {
  dg_SectorSize : Z;
  dg_TotalSectors : Z;
  dg_Cylinders : Z;
  dg_CylSectors : Z;
  dg_Heads : Z;
  dg_TrackSectors : Z;
  dg_BufMemType : Z;
  dg_DeviceType : Z;
  dg_Flags : Z
}.

(** The fields of [sd_card_info_t] ([sd.h]) that the driver reads. *)
Record sd_card_info_t : Type := mkCardInfo {
  type : Z;
  block_size : Z;
  capacity : Z
}.

(** Calls that leave the driver: to the card interface ([sd.h]) and to Exec. *)
Inductive call : Type :=
| C_sd_open
| C_sd_get_card_info
| C_sd_read (data block count : Z)
| C_sd_write (data block count : Z)
| C_Cause (interrupt : Z)
| C_ReplyMsg.

(** The globals of the driver.  [ctx] is the address returned by [AllocMem]
    (or [NULL]) and [ctx_mem] the object it points to; [calls] lists the
    outgoing calls made so far, oldest first. *)
Record globals : Type := mkGlobals {
  ctx : Z;
  ctx_mem : device_ctx_t;
  sw_int : Z;
  disk_state : Z;
  calls : list call
}.

Definition set_sw_int v g := mkGlobals (ctx g) (ctx_mem g) v (disk_state g) (calls g).
Definition set_disk_state v g := mkGlobals (ctx g) (ctx_mem g) (sw_int g) v (calls g).
Definition set_ctx_mem v g := mkGlobals (ctx g) v (sw_int g) (disk_state g) (calls g).
Definition log (c : call) g := mkGlobals (ctx g) (ctx_mem g) (sw_int g) (disk_state g) (calls g ++ [c]).

Definition set_io_Unit v r := mkIOStdReq v (io_Command r) (io_Flags r) (io_Error r)
  (io_Actual r) (io_Length r) (io_Data r) (io_Offset r).
Definition set_io_Error v r := mkIOStdReq (io_Unit r) (io_Command r) (io_Flags r) v
  (io_Actual r) (io_Length r) (io_Data r) (io_Offset r).
Definition set_io_Actual v r := mkIOStdReq (io_Unit r) (io_Command r) (io_Flags r) (io_Error r)
  v (io_Length r) (io_Data r) (io_Offset r).

(** Address of [ctx->unit]: the unit follows the 4-byte [device] pointer. *)
Definition addr_unit (c : Z) : Z := c + 4.

Section Driver.

(** Declared in [sd.h], which is not among the sources: the card type that
    stands for "no card" and the sector shift. *)
Variable sdCardType_None : Z.
Variable SD_SECTOR_SHIFT : Z.

(** The card interface ([sd.c]) is external.  What a call returns may depend
    on its arguments and on everything that happened before. *)
Variable sd_open : list call -> Z.
Variable sd_get_card_info : list call -> sd_card_info_t.
Variable sd_read : list call -> Z -> Z -> Z -> Z.
Variable sd_write : list call -> Z -> Z -> Z -> Z.

Definition hw_isr (g : globals) : globals :=
  if negb (sw_int g =? NULL) then
    let g := log (C_Cause (sw_int g)) g in
    set_disk_state (if disk_state g =? 0 then 1 else 0) g
  else g.

(** [geom] is the object [iostd->io_Data] points to. *)
Definition device_get_geometry (g : globals) (geom : DriveGeometry)
  : globals * DriveGeometry * Z :=
  let ci := sd_get_card_info (calls g) in
  let g := log C_sd_get_card_info g in
  if negb (type ci =? sdCardType_None) then
    let sectors := u32 (Z.shiftr (capacity ci) (block_size ci)) in
    (g,
     {| dg_SectorSize := u32 (Z.shiftl 1 (block_size ci));
        dg_TotalSectors := sectors;
        dg_Cylinders := sectors;
        dg_CylSectors := 1;
        dg_Heads := 1;
        dg_TrackSectors := 1;
        dg_BufMemType := MEMF_PUBLIC;
        dg_DeviceType := DG_DIRECT_ACCESS;
        dg_Flags := DGF_REMOVABLE |},
     0)
  else (g, geom, TDERR_DiskChanged).

(** [__UserDevOpen].  [None] is a store through a null pointer. *)
Definition UserDevOpen (g : globals) (ioreq : option IOStdReq) (unit_no flags : Z)
  : option (globals * IOStdReq * Z) :=
  let err := IOERR_OPENFAIL in
  let body : option (globals * option IOStdReq * Z) :=
    match ioreq with
    | Some iostd =>
      if unit_no =? 0 then
        let r := sd_open (calls g) in
        let g := log C_sd_open g in
        if r =? 0 then
          if ctx g =? NULL then None
          else
            let iostd := set_io_Unit (addr_unit (ctx g)) iostd in
            let g := set_ctx_mem (mkCtx (device (ctx_mem g)) (mkUnit UNITF_ACTIVE 1)) g in
            Some (g, Some iostd, 0)
        else Some (g, ioreq, err)
      else Some (g, ioreq, err)
    | None => Some (g, ioreq, err)
    end in
  match body with
  | Some (g, Some iostd, err) => Some (g, set_io_Error err iostd, err)
  | _ => None
  end.

(** The [switch] of [__BeginIO], entered with [io_Error] already 0. *)
Definition dispatch (g : globals) (iostd : IOStdReq) (geom : DriveGeometry)
  : globals * IOStdReq * DriveGeometry :=
  let cmd := io_Command iostd in
  if (cmd =? CMD_RESET) || (cmd =? CMD_CLEAR) || (cmd =? CMD_UPDATE) || (cmd =? TD_MOTOR) then
    (g, iostd, geom)
  else if cmd =? TD_PROTSTATUS then
    (g, set_io_Actual 0 iostd, geom)
  else if cmd =? TD_ADDCHANGEINT then
    if negb (io_Data iostd =? NULL) then (set_sw_int (io_Data iostd) g, iostd, geom)
    else (set_sw_int NULL g, iostd, geom)
  else if cmd =? TD_CHANGENUM then
    (g, iostd, geom)
  else if cmd =? TD_CHANGESTATE then
    (g, set_io_Actual (disk_state g) iostd, geom)
  else if cmd =? TD_REMOVE then
    (g, set_io_Actual 0 iostd, geom)
  else if cmd =? TD_REMCHANGEINT then
    (g, iostd, geom)
  else if cmd =? TD_GETDRIVETYPE then
    (g, set_io_Actual DG_DIRECT_ACCESS iostd, geom)
  else if cmd =? TD_GETGEOMETRY then
    let iostd := set_io_Actual 0 iostd in
    let '(g, geom, err) := device_get_geometry g geom in
    (g, set_io_Error err iostd, geom)
  else if cmd =? TD_FORMAT then
    (g, iostd, geom)
  else if cmd =? CMD_WRITE then
    let block := Z.shiftr (io_Offset iostd) SD_SECTOR_SHIFT in
    let count := Z.shiftr (io_Length iostd) SD_SECTOR_SHIFT in
    let r := sd_write (calls g) (io_Data iostd) block count in
    let g := log (C_sd_write (io_Data iostd) block count) g in
    if r =? 0 then (g, set_io_Error 0 (set_io_Actual (io_Length iostd) iostd), geom)
    else (g, set_io_Error TDERR_NotSpecified (set_io_Actual 0 iostd), geom)
  else if cmd =? CMD_READ then
    let block := Z.shiftr (io_Offset iostd) SD_SECTOR_SHIFT in
    let count := Z.shiftr (io_Length iostd) SD_SECTOR_SHIFT in
    let r := sd_read (calls g) (io_Data iostd) block count in
    let g := log (C_sd_read (io_Data iostd) block count) g in
    if r =? 0 then (g, set_io_Error 0 (set_io_Actual (io_Length iostd) iostd), geom)
    else (g, set_io_Error TDERR_NotSpecified (set_io_Actual 0 iostd), geom)
  else
    (g, set_io_Error IOERR_NOCMD iostd, geom).

(** [__BeginIO].  A request of [None] is a null [ioreq]. *)
Definition BeginIO (g : globals) (ioreq : option IOStdReq) (geom : DriveGeometry)
  : globals * option IOStdReq * DriveGeometry :=
  match ioreq with
  | None => (g, None, geom)
  | Some iostd =>
    if ctx g =? NULL then (g, Some iostd, geom)
    else
      let iostd := set_io_Error 0 iostd in
      let '(g, iostd, geom) := dispatch g iostd geom in
      if negb (tst (io_Flags iostd) IOF_QUICK) then (log C_ReplyMsg g, Some iostd, geom)
      else (g, Some iostd, geom)
  end.

(** The request handed back by [__BeginIO], for a request that exists. *)
Definition completed (g : globals) (iostd : IOStdReq) (geom : DriveGeometry) : IOStdReq :=
  match BeginIO g (Some iostd) geom with
  | (_, Some r, _) => r
  | (_, None, _) => iostd
  end.

(** Calls that start a Transaction on the bridge: block reads and writes. *)
Definition is_transaction (c : call) : bool :=
  match c with
  | C_sd_read _ _ _ | C_sd_write _ _ _ => true
  | _ => false
  end.

End Driver.

(** The initial values of the globals, before [__UserDevInit]. *)
Definition globals_init : globals :=
  {| ctx := NULL; ctx_mem := mkCtx 0 (mkUnit 0 0); sw_int := NULL; disk_state := 0; calls := [] |}.

(** The shadow presence state: 0 is "disk present", 1 "disk not present". *)
Definition Present : Z := 0.
Definition Absent : Z := 1.

(** *** Further definitions *)

(** [__UserDevClose]: returns 0. *)
Definition UserDevClose (g : globals) (ioreq : option IOStdReq) : globals * Z := (g, 0).

(** [__AbortIO]: a null request is ignored. *)
Definition AbortIO (ioreq : option IOStdReq) : option IOStdReq :=
  match ioreq with
  | None => None
  | Some r => Some (set_io_Error IOERR_ABORTED r)
  end.

(** The commands whose case in [__BeginIO] is empty. *)
Definition noop_commands : list Z :=
  [CMD_RESET; CMD_CLEAR; CMD_UPDATE; TD_MOTOR; TD_CHANGENUM; TD_REMCHANGEINT; TD_FORMAT].

(** The commands that have a case in [__BeginIO]. *)
Definition known_commands : list Z :=
  noop_commands ++
  [TD_PROTSTATUS; TD_ADDCHANGEINT; TD_CHANGESTATE; TD_REMOVE; TD_GETDRIVETYPE;
   TD_GETGEOMETRY; CMD_WRITE; CMD_READ].

Definition is_reply (c : call) : bool :=
  match c with
  | C_ReplyMsg => true
  | _ => false
  end.

End Device.

(** ** Device initialisation and clean-up *)

Module Lifecycle.
Import Device.

(** Constants of [exec/memory.h], [exec/nodes.h] and [hardware/cia.h]. *)
Definition MEMF_CLEAR : Z := 65536.
Definition NT_INTERRUPT : Z := 2.
Definition CIAICRB_FLG : Z := 4.

(** Calls to Exec, to the CIA resource and to the SPI layer ([spi-par.h]). *)
Inductive os_call : Type :=
| O_AllocMem (size flags : Z)
| O_FreeMem (addr size : Z)
| O_OpenResource
| O_AddICRVector (resource bit interrupt : Z)
| O_spi_init
| O_spi_shutdown.

(** What [is_Code] and [is_Data] of the interrupt node point to. *)
Inductive code_ptr : Type := no_code | code_hw_isr.
Inductive data_ptr : Type := no_data | addr_disk_state.

Record Interrupt : Type := mkInterrupt {
  ln_Type : Z;
  ln_Pri : Z;
  is_Code : code_ptr;
  is_Data : data_ptr
}.

(** The driver's globals with the interrupt bookkeeping: [hw_int] is the
    address of the interrupt node and [hw_int_mem] the node, [ciabase] the
    CIA resource; [os_calls] lists the calls made, oldest first. *)
Record driver : Type := mkDriver {
  G : globals;
  hw_int : Z;
  hw_int_mem : Interrupt;
  ciabase : Z;
  os_calls : list os_call
}.

Definition set_ctx v g := mkGlobals v (ctx_mem g) (sw_int g) (disk_state g) (calls g).
Definition set_G v d := mkDriver v (hw_int d) (hw_int_mem d) (ciabase d) (os_calls d).
Definition set_hw_int v d := mkDriver (G d) v (hw_int_mem d) (ciabase d) (os_calls d).
Definition set_hw_int_mem v d := mkDriver (G d) (hw_int d) v (ciabase d) (os_calls d).
Definition set_ciabase v d := mkDriver (G d) (hw_int d) (hw_int_mem d) v (os_calls d).
Definition log_os (c : os_call) d :=
  mkDriver (G d) (hw_int d) (hw_int_mem d) (ciabase d) (os_calls d ++ [c]).

Section Init.

(** [sizeof(device_ctx_t)] and [sizeof(struct Interrupt)]. *)
Variable sizeof_device_ctx_t : Z.
Variable sizeof_Interrupt : Z.

(** Exec's [AllocMem] and [OpenResource]: what they return may depend on
    everything that happened before. *)
Variable AllocMem : list os_call -> Z -> Z -> Z.
Variable OpenResource : list os_call -> Z.

Definition int_init (d : driver) : driver :=
  let flags := Z.lor MEMF_PUBLIC MEMF_CLEAR in
  let a := AllocMem (os_calls d) sizeof_Interrupt flags in
  let d := log_os (O_AllocMem sizeof_Interrupt flags) d in
  let d := set_hw_int a d in
  if negb (a =? NULL) then
    let d := set_hw_int_mem (mkInterrupt 0 0 no_code no_data) d in
    let r := OpenResource (os_calls d) in
    let d := log_os O_OpenResource d in
    let d := set_ciabase r d in
    if negb (r =? NULL) then
      let d := set_hw_int_mem (mkInterrupt NT_INTERRUPT 127 code_hw_isr addr_disk_state) d in
      log_os (O_AddICRVector (ciabase d) CIAICRB_FLG (hw_int d)) d
    else d
  else d.

(** [__UserDevInit]: the state after it and its return value. *)
Definition UserDevInit (d : driver) (device : Z) : driver * Z :=
  let flags := Z.lor MEMF_PUBLIC MEMF_CLEAR in
  let a := AllocMem (os_calls d) sizeof_device_ctx_t flags in
  let d := log_os (O_AllocMem sizeof_device_ctx_t flags) d in
  let d := set_G (set_ctx a (G d)) d in
  if a =? NULL then (d, 0)
  else
    let d := set_G (set_ctx_mem (mkCtx device (mkUnit 0 0)) (G d)) d in
    let d := log_os O_spi_init d in
    let d := int_init d in
    (d, 1).

(** [__UserDevCleanup]. *)
Definition UserDevCleanup (d : driver) : driver :=
  if negb (ctx (G d) =? NULL) then
    let d := log_os O_spi_shutdown d in
    let d := log_os (O_FreeMem (ctx (G d)) sizeof_device_ctx_t) d in
    set_G (set_ctx NULL (G d)) d
  else d.

End Init.

(** The driver before [__UserDevInit]. *)
Definition driver_init : driver :=
  {| G := globals_init; hw_int := NULL; hw_int_mem := mkInterrupt 0 0 no_code no_data;
     ciabase := NULL; os_calls := [] |}.


End Lifecycle.

(** * Sample inputs *)

Module Samples.
Import Avr Device.

(** The bus at rest: clock low, all data lines low. *)
Definition idle_pins : pins := mkPins 0 0.

(** The card answers 0xA0, 0xA1, 0xA2, ... *)
Definition card (n : nat) : Z := 0xA0 + Z.of_nat n.

(** Frame wait, then the host clocks four steps. *)
Definition read2 : avr :=
  set_byte_count 2
    (main_init idle_pins [mkPins 0 0x20; mkPins 0 0; mkPins 0 0x20; mkPins 0 0]).

(** Count 0 and two clocked steps. *)
Definition read0 : avr := main_init idle_pins [mkPins 0 0x20; mkPins 0 0].

(** Header byte 0x45 (short Read, count 5). *)
Definition hdr_45 : avr := main_init idle_pins [mkPins 0x05 0x60].

(** Header bytes 0xA1, 0xC3 (long Read, count 0x1C3). *)
Definition hdr_A1_C3 : avr := main_init idle_pins [mkPins 0x21 0xA0; mkPins 0x03 0xC0].

(** Header byte 0xC1 (clock rate, fast). *)
Definition hdr_C1 : avr := main_init idle_pins [mkPins 0x01 0xE0].

(** Header byte 0xC2: top bit and bit 6 set, bit 1 set. *)
Definition hdr_C2 : avr := main_init idle_pins [mkPins 0x02 0xE0; mkPins 0 0x40].

(** Header bytes 0x80, 0x40. *)
Definition hdr_80_40 : avr := main_init idle_pins [mkPins 0 0xA0; mkPins 0 0x40].

(** Header bytes 0x82, 0x40. *)
Definition hdr_82_40 : avr := main_init idle_pins [mkPins 0x02 0xA0; mkPins 0 0x40].

(** [PINB] with a card in the socket: CD' (PB0) is pulled to ground. *)
Definition pinb_card_inserted : Z := 0.

(** A card interface whose block operations succeed, and one whose fail. *)
Definition sd_ok (_ : list call) (_ _ _ : Z) : Z := 0.
Definition sd_fail (_ : list call) (_ _ _ : Z) : Z := -1.
Definition sd_open_ok (_ : list call) : Z := 0.
Definition sd_open_fail (_ : list call) : Z := -1.

(** Card type 0 stands for no card; a 1 GiB card with 512-byte blocks. *)
Definition no_card_type : Z := 0.
Definition info_absent (_ : list call) : sd_card_info_t := mkCardInfo 0 0 0.
Definition info_1G (_ : list call) : sd_card_info_t := mkCardInfo 3 9 (2 ^ 30).

(** The driver after [__UserDevInit], without and with a change interrupt. *)
Definition ready : globals :=
  {| ctx := 0x40000; ctx_mem := mkCtx 0x1000 (mkUnit 0 0); sw_int := NULL;
     disk_state := 0; calls := [] |}.
Definition bound : globals := set_sw_int 0x1234 ready.

Definition request (cmd data offset len : Z) : IOStdReq :=
  {| io_Unit := 0; io_Command := cmd; io_Flags := 0; io_Error := 0; io_Actual := 0;
     io_Length := len; io_Data := data; io_Offset := offset |}.

Definition blank_geometry : DriveGeometry := mkGeom 0 0 0 0 0 0 0 0 0.

(** *** Further samples *)

(** Count 2 with the host presenting 0x51, 0xA2, 0xF3 at three clock edges. *)
Definition write2 : avr :=
  set_byte_count 2
    (main_init idle_pins [mkPins 0x11 0x60; mkPins 0x22 0x80; mkPins 0x33 0xE0]).

(** Count 2 and a host that stops after two clock edges. *)
Definition read2_stalled : avr :=
  set_byte_count 2 (main_init idle_pins [mkPins 0 0x20; mkPins 0 0]).

(** [hdr_45] after its header was decoded. *)
Definition hdr_45_decoded : avr :=
  set_byte_count 5 (set_time (mkPins 0x05 0x60) [] hdr_45).

(** Short Write frame: header 0x01 (count 1), payload 0x51, 0xA2. *)
Definition frame_write1 : avr :=
  main_init idle_pins [mkPins 0x01 0x20; mkPins 0x11 0x40; mkPins 0x22 0xA0].

(** Long Read frame: header 0xA0, 0x01 (count 1), then three clock edges. *)
Definition frame_read1 : avr :=
  main_init idle_pins
    [mkPins 0x20 0xA0; mkPins 0x01 0x00; mkPins 0 0x20; mkPins 0 0; mkPins 0 0x20].

(** Exec hands out memory at 0x40000, or none; the CIA resource opens. *)
Definition alloc_ok (_ : list Lifecycle.os_call) (_ _ : Z) : Z := 0x40000.
Definition alloc_fail (_ : list Lifecycle.os_call) (_ _ : Z) : Z := 0.
Definition resource_ok (_ : list Lifecycle.os_call) : Z := 0xBFE001.

(** Two clock-rate commands: 0xC1 (fast), then 0xC0 (slow). *)
Definition two_rates : avr := main_init idle_pins [mkPins 0x01 0xE0; mkPins 0x00 0xC0].

End Samples.

(** * Part III: properties of the relay controller *)

Module AvrFacts.
Import Avr.

(** ** Bit-level helpers *)

Lemma land_pow2 (v n : Z) :
  0 <= n -> Z.land v (2 ^ n) = if Z.testbit v n then 2 ^ n else 0.
Proof.
  intros Hn. apply Z.bits_inj'. intros m Hm.
  rewrite Z.land_spec, Z.pow2_bits_eqb by assumption.
  destruct (Z.eqb_spec n m) as [->|Hne].
  - destruct (Z.testbit v m); simpl.
    + now rewrite Z.pow2_bits_eqb, Z.eqb_refl.
    + now rewrite Z.bits_0.
  - rewrite andb_false_r. destruct (Z.testbit v n).
    + rewrite Z.pow2_bits_eqb by assumption. symmetry. now apply Z.eqb_neq.
    + now rewrite Z.bits_0.
Qed.

Lemma tst_bit (v n : Z) : 0 <= n -> tst v (bit n) = Z.testbit v n.
Proof.
  intros Hn. unfold tst, bit. rewrite Z.shiftl_1_l, land_pow2 by assumption.
  destruct (Z.testbit v n); simpl.
  - assert (0 < 2 ^ n) by (apply Z.pow_pos_nonneg; lia).
    destruct (Z.eqb_spec (2 ^ n) 0); [lia | reflexivity].
  - reflexivity.
Qed.

Lemma land_le (v m : Z) : 0 <= m -> 0 <= Z.land v m <= m.
Proof.
  intros Hm. apply Z.ldiff_le; [assumption|].
  apply Z.bits_inj'. intros k Hk.
  rewrite Z.ldiff_spec, Z.land_spec, Z.bits_0. btauto.
Qed.

Lemma lor_below (a b n : Z) :
  0 <= a < 2 ^ n -> 0 <= b < 2 ^ n -> 0 <= Z.lor a b < 2 ^ n.
Proof.
  intros Ha Hb. split; [apply Z.lor_nonneg; lia|].
  assert (Hor : 0 <= Z.lor a b) by (apply Z.lor_nonneg; lia).
  destruct (Z.eq_dec (Z.lor a b) 0) as [->|Hnz]; [lia|].
  assert (Hn : 0 < n).
  { destruct (Z_lt_le_dec 0 n) as [|Hle]; [assumption|exfalso].
    assert (2 ^ n <= 1).
    { destruct (Z.eq_dec n 0) as [->|]; [simpl; lia|].
      rewrite Z.pow_neg_r by lia. lia. }
    assert (a = 0) by lia. assert (b = 0) by lia. subst. now apply Hnz. }
  apply Z.log2_lt_pow2; [lia|].
  rewrite Z.log2_lor by lia.
  apply Z.max_lub_lt.
  - destruct (Z.eq_dec a 0) as [->|]; [simpl; lia|apply Z.log2_lt_pow2; lia].
  - destruct (Z.eq_dec b 0) as [->|]; [simpl; lia|apply Z.log2_lt_pow2; lia].
Qed.

Lemma u16_small (v : Z) : 0 <= v < 65536 -> u16 v = v.
Proof. intros H. unfold u16. now apply Z.mod_small. Qed.

(** ** The header byte and the pins it is read from *)

Lemma bus_byte_land (p : pins) (m : Z) :
  Z.land (bus_byte p) m =
  Z.lor (Z.land (PIND p) (Z.land 0xC0 m)) (Z.land (PINC p) (Z.land 0x3F m)).
Proof.
  unfold bus_byte. now rewrite Z.land_lor_distr_l, <- !Z.land_assoc.
Qed.

Lemma bus_byte_high (p : pins) (m : Z) :
  Z.land 0xC0 m = m -> Z.land 0x3F m = 0 ->
  Z.land (bus_byte p) m = Z.land (PIND p) m.
Proof.
  intros H1 H2. rewrite bus_byte_land, H1, H2, Z.land_0_r. apply Z.lor_0_r.
Qed.

Lemma bus_byte_low (p : pins) (m : Z) :
  Z.land 0xC0 m = 0 -> Z.land 0x3F m = m ->
  Z.land (bus_byte p) m = Z.land (PINC p) m.
Proof.
  intros H1 H2. rewrite bus_byte_land, H1, H2, Z.land_0_r. apply Z.lor_0_l.
Qed.

Lemma tst_bit7 (p : pins) : tst (PIND p) 0x80 = Z.testbit (bus_byte p) 7.
Proof.
  rewrite <- (tst_bit (bus_byte p) 7) by lia. unfold tst.
  change (bit 7) with 0x80. now rewrite bus_byte_high.
Qed.

Lemma tst_bit6 (p : pins) : tst (PIND p) 0x40 = Z.testbit (bus_byte p) 6.
Proof.
  rewrite <- (tst_bit (bus_byte p) 6) by lia. unfold tst.
  change (bit 6) with 0x40. now rewrite bus_byte_high.
Qed.

Lemma tst_bit5 (p : pins) : tst (PINC p) 0x20 = Z.testbit (bus_byte p) 5.
Proof.
  rewrite <- (tst_bit (bus_byte p) 5) by lia. unfold tst.
  change (bit 5) with 0x20. now rewrite bus_byte_low.
Qed.

Lemma tst_bit0 (p : pins) : tst (PINC p) 1 = Z.testbit (bus_byte p) 0.
Proof.
  rewrite <- (tst_bit (bus_byte p) 0) by lia. unfold tst.
  change (bit 0) with 1. now rewrite bus_byte_low.
Qed.

Lemma pinc_six_bits (p : pins) : wf_pins p -> Z.land (bus_byte p) 0x3F = PINC p.
Proof.
  intros [Hc _]. rewrite bus_byte_low by reflexivity.
  change 0x3F with (Z.ones 6). rewrite Z.land_ones by lia.
  apply Z.mod_small. simpl. lia.
Qed.

(** ** Frame decoding *)

(** Reduce projections of updated states, and nothing else. *)
Ltac regs :=
  cbn [PORTB DDRB PORTC DDRC PORTD DDRD SPCR SPSR SPDR pin_c pin_d next_port_d
       next_port_c byte_count cur future miso_n mosi trace
       set_PORTB set_PORTC set_DDRC set_PORTD set_DDRD set_SPCR set_pin_c set_pin_d
       set_next_port_d set_next_port_c set_byte_count set_time write_SPDR read_SPDR
       negb fst snd].

Lemma wait_clock_spin (ref : Z) (s : avr) (p : pins) (f : list pins) :
  spin (clk ref) (cur s) (future s) = Some (p, f) ->
  wait_clock ref s = Some (set_time p f s).
Proof. unfold wait_clock, clk. now intros ->. Qed.

Lemma quiet_refl (s : avr) : quiet s s.
Proof. unfold quiet. tauto. Qed.

Lemma long_count (p0 p1 : pins) :
  wf_pins p0 -> wf_pins p1 ->
  let c := Z.lor (Z.lor (Z.shiftl (Z.land (bus_byte p0) 0x1F) 8) (Z.land (bus_byte p1) 0xC0))
                 (Z.land (bus_byte p1) 0x3F) in
  u16 (Z.lor (u16 (Z.shiftl (Z.land (PINC p0) 0x1F) 8))
             (Z.lor (Z.land (PIND p1) 0xC0) (PINC p1))) = c /\ 0 <= c <= 8191.
Proof.
  intros W0 W1. cbv zeta.
  rewrite (pinc_six_bits p1 W1).
  rewrite (bus_byte_low p0 0x1F), (bus_byte_high p1 0xC0) by reflexivity.
  rewrite <- Z.lor_assoc.
  pose proof (land_le (PINC p0) 0x1F ltac:(lia)) as H5.
  pose proof (land_le (PIND p1) 0xC0 ltac:(lia)) as H2.
  destruct W1 as [Wc Wd].
  assert (Hhi : 0 <= Z.shiftl (Z.land (PINC p0) 0x1F) 8 < 2 ^ 13).
  { rewrite Z.shiftl_mul_pow2 by lia. change (2 ^ 8) with 256. change (2 ^ 13) with 8192. lia. }
  assert (Hlo : 0 <= Z.lor (Z.land (PIND p1) 0xC0) (PINC p1) < 2 ^ 13).
  { assert (0 <= Z.lor (Z.land (PIND p1) 0xC0) (PINC p1) < 2 ^ 8).
    { apply lor_below; change (2 ^ 8) with 256; lia. }
    change (2 ^ 8) with 256 in *. change (2 ^ 13) with 8192. lia. }
  pose proof (lor_below _ _ 13 Hhi Hlo) as Hc.
  change (2 ^ 13) with 8192 in *.
  rewrite (u16_small (Z.shiftl _ 8)) by lia.
  rewrite u16_small by lia. split; [reflexivity|lia].
Qed.

(** C2 (as the firmware decodes): when the top bit of byte0 is 0 the header
    is a single byte, bit 6 selects Read (set) or Write (clear) and the count
    is the low six bits.  When the top bit is 1 and bit 6 of byte0 is 0 a
    second byte is sampled on the next clocked step, the count is
    (bits 0-4 of byte0 << 8) | (bits 6-7 of byte1) | (low 6 bits of byte1),
    at most 8191, and bit 5 of byte0 selects the direction.  When the top bit
    and bit 6 of byte0 are 1 and bits 1-5 of byte0 are 0 the frame is a
    clock-rate command selected by bit 0 of byte0, and nothing more is
    sampled or exchanged. *)
Theorem frame_decoding (s : avr) (p0 : pins) (f0 : list pins) :
  spin (clk (PIND (cur s))) (cur s) (future s) = Some (p0, f0) ->
  wf_pins p0 ->
  let byte0 := bus_byte p0 in
  (Z.testbit byte0 7 = false ->
   exists s',
     header s = Goto (if Z.testbit byte0 6 then L_do_read else L_do_write) s' /\
     byte_count s' = Z.land byte0 0x3F /\
     cur s' = p0 /\ future s' = f0 /\ quiet s s')
  /\
  (Z.testbit byte0 7 = true -> Z.testbit byte0 6 = false ->
   forall (p1 : pins) (f1 : list pins),
     spin (clk (PIND p0)) p0 f0 = Some (p1, f1) -> wf_pins p1 ->
     let byte1 := bus_byte p1 in
     exists s',
       header s = Goto (if Z.testbit byte0 5 then L_do_read else L_do_write) s' /\
       byte_count s' =
         Z.lor (Z.lor (Z.shiftl (Z.land byte0 0x1F) 8) (Z.land byte1 0xC0))
               (Z.land byte1 0x3F) /\
       0 <= byte_count s' <= 8191 /\
       cur s' = p1 /\ future s' = f1 /\ quiet s s')
  /\
  (Z.testbit byte0 7 = true -> Z.testbit byte0 6 = true -> Z.land byte0 0x3E = 0 ->
   exists s',
     header s = Goto L_main_loop s' /\
     SPCR s' = (if Z.testbit byte0 0 then SPCR_fast else SPCR_slow) /\
     cur s' = p0 /\ future s' = f0 /\ quiet s s').
Proof.
  intros Hspin W0 byte0. subst byte0.
  pose proof (wait_clock_spin _ _ _ _ Hspin) as Hw.
  repeat split.
  - intros H7. unfold header, main_loop. rewrite Hw. regs.
    rewrite tst_bit7, H7, tst_bit6. regs.
    destruct (Z.testbit (bus_byte p0) 6).
    + eexists. split; [reflexivity|]. regs.
      rewrite (pinc_six_bits p0 W0). unfold quiet. regs. repeat split.
    + eexists. split; [reflexivity|]. regs.
      rewrite (pinc_six_bits p0 W0). unfold quiet. regs. repeat split.
  - intros H7 H6 p1 f1 Hspin1 W1 byte1. subst byte1.
    unfold header, main_loop. rewrite Hw. regs.
    rewrite tst_bit7, H7. regs.
    rewrite tst_bit6, H6. regs.
    unfold wait_clock. regs. fold (clk (PIND p0)). rewrite Hspin1. regs.
    rewrite tst_bit5.
    destruct (long_count p0 p1 W0 W1) as [Hc Hr].
    destruct (Z.testbit (bus_byte p0) 5);
      (eexists; split; [reflexivity|]; unfold quiet; regs; rewrite Hc;
       repeat split; lia).
  - intros H7 H6 H15.
    unfold header, main_loop. rewrite Hw. regs.
    rewrite tst_bit7, H7. regs.
    rewrite tst_bit6, H6. regs.
    rewrite <- (bus_byte_low p0 0x3E), H15 by reflexivity.
    rewrite Z.eqb_refl, tst_bit0.
    destruct (Z.testbit (bus_byte p0) 0);
      (eexists; split; [reflexivity|]; unfold quiet; regs; repeat split).
Qed.

(** C5 (as the firmware behaves): a header whose byte0 has the top bit and
    bit 6 set and bits 1-5 not all zero matches no recognised shape.  The
    firmware silently drops it: control is back at frame wait, no port and no
    SPI register was written, no SPI exchange took place and no further byte
    was sampled. *)
Theorem unrecognised_header_ignored (s : avr) (p0 : pins) (f0 : list pins) :
  spin (clk (PIND (cur s))) (cur s) (future s) = Some (p0, f0) ->
  Z.testbit (bus_byte p0) 7 = true ->
  Z.testbit (bus_byte p0) 6 = true ->
  Z.land (bus_byte p0) 0x3E <> 0 ->
  exists s',
    header s = Goto L_main_loop s' /\
    cur s' = p0 /\ future s' = f0 /\
    SPCR s' = SPCR s /\ SPSR s' = SPSR s /\ byte_count s' = byte_count s /\
    quiet s s'.
Proof.
  intros Hspin H7 H6 H15.
  pose proof (wait_clock_spin _ _ _ _ Hspin) as Hw.
  unfold header, main_loop. rewrite Hw. regs.
  rewrite tst_bit7, H7. regs.
  rewrite tst_bit6, H6. regs.
  rewrite <- (bus_byte_low p0 0x3E) by reflexivity.
  destruct (Z.eqb_spec (Z.land (bus_byte p0) 0x3E) 0) as [E|_]; [contradiction|].
  eexists. split; [reflexivity|]. unfold quiet. regs. repeat split.
Qed.

(** ** The detect mirror *)

Lemma ISR_PCINT0_ack (pinb : Z) (s : avr) :
  Z.testbit (PORTB (ISR_PCINT0 pinb s)) ACK_BIT = negb (Z.testbit pinb CD_BIT).
Proof.
  unfold ISR_PCINT0. rewrite tst_bit by (unfold CD_BIT; lia).
  destruct (Z.testbit pinb CD_BIT); regs.
  - rewrite Z.land_spec, Z.lnot_spec by (unfold ACK_BIT; lia).
    replace (Z.testbit (bit ACK_BIT) ACK_BIT) with true by reflexivity.
    now rewrite andb_false_r.
  - rewrite Z.lor_spec.
    replace (Z.testbit (bit ACK_BIT) ACK_BIT) with true by reflexivity.
    now rewrite orb_true_r.
Qed.

Lemma block_PORTB (miso : nat -> Z) (l l' : label) (s s' : avr) :
  block miso l s = Goto l' s' -> PORTB s' = PORTB s.
Proof.
  destruct l; unfold block, main_loop, do_read1, do_read, read_loop, do_write1,
    do_write, write_loop, wait_clock, wait_SPIF; regs;
  repeat match goal with
         | |- context [spin ?a ?b ?c] => destruct (spin a b c) as [[? ?]|]
         | |- context [tst ?a ?b] => destruct (tst a b)
         | |- context [match ?x with _ => _ end] => destruct x
         end;
  intros H; inversion H; subst; regs; reflexivity.
Qed.

Lemma tick_main_PORTB (miso : nat -> Z) (c : label * avr) :
  PORTB (snd (tick_step miso c T_main)) = PORTB (snd c).
Proof.
  unfold tick_step. destruct (block miso (fst c) (snd c)) eqn:E; [|reflexivity].
  apply block_PORTB in E. exact E.
Qed.

Lemma ticks_main_PORTB (miso : nat -> Z) (n : nat) (c : label * avr) :
  PORTB (snd (ticks miso c (repeat T_main n))) = PORTB (snd c).
Proof.
  revert c. induction n as [|n IH]; intros c; [reflexivity|].
  cbn [repeat ticks fold_left]. fold (ticks miso (tick_step miso c T_main) (repeat T_main n)).
  rewrite IH. apply tick_main_PORTB.
Qed.

(** C4 (as the firmware behaves): once the pin-change handler has run for
    a detect-line transition, the interrupt line ACK is the logical inverse
    of the detect level CD' it sampled, whatever happened before, and it
    stays so while the main program runs, until the next transition.  Before
    the first transition [main] has driven ACK low, whatever the detect
    level. *)
Theorem detect_mirror (miso : nat -> Z) (c : label * avr) (before : list tick)
    (pinb : Z) (n : nat) (p : pins) (f : list pins) :
  Z.testbit (PORTB (snd (ticks miso c (before ++ T_isr pinb :: repeat T_main n)))) ACK_BIT
    = negb (Z.testbit pinb CD_BIT)
  /\ Z.testbit (PORTB (snd (ticks miso (L_main_loop, main_init p f) (repeat T_main n)))) ACK_BIT
    = false.
Proof.
  split.
  - unfold ticks. rewrite fold_left_app. cbn [fold_left].
    fold (ticks miso c before).
    fold (ticks miso (tick_step miso (ticks miso c before) (T_isr pinb)) (repeat T_main n)).
    rewrite ticks_main_PORTB. cbn [tick_step snd]. apply ISR_PCINT0_ack.
  - rewrite ticks_main_PORTB. reflexivity.
Qed.

(** ** The Read transfer phase *)

Lemma edges_cons (lvl : bool) (p : pins) (r : list pins) :
  edges lvl (p :: r) =
  if Bool.eqb (clk (PIND p)) lvl then edges lvl r else S (edges (clk (PIND p)) r).
Proof. reflexivity. Qed.

Lemma edges_same (p : pins) (r : list pins) :
  edges (clk (PIND p)) (p :: r) = edges (clk (PIND p)) r.
Proof. now rewrite edges_cons, Bool.eqb_reflx. Qed.

Lemma spin_eq (lvl : bool) (p : pins) (f : list pins) :
  spin lvl p f =
  if Bool.eqb (clk (PIND p)) lvl then
    match f with [] => None | q :: r => spin lvl q r end
  else Some (p, f).
Proof. destruct f; reflexivity. Qed.

Lemma spin_edges (lvl : bool) (f : list pins) :
  forall (p : pins) (n : nat),
    (S n <= edges lvl (p :: f))%nat ->
    exists p' f',
      spin lvl p f = Some (p', f') /\
      (n <= edges (clk (PIND p')) (p' :: f'))%nat.
Proof.
  induction f as [|q r IH]; intros p n H; rewrite edges_cons in H; rewrite spin_eq;
    destruct (Bool.eqb (clk (PIND p)) lvl) eqn:E.
  - cbn [edges] in H. lia.
  - exists p, []. split; [reflexivity|]. rewrite edges_same. lia.
  - apply IH. exact H.
  - exists p, (q :: r). split; [reflexivity|]. rewrite edges_same. lia.
Qed.

Lemma wait_clock_edges (ref : Z) (s : avr) (n : nat) :
  (S n <= edges (clk ref) (cur s :: future s))%nat ->
  exists p' f',
    wait_clock ref s = Some (set_time p' f' s) /\
    (n <= edges (clk (PIND p')) (p' :: f'))%nat.
Proof.
  intros H. destruct (spin_edges _ _ _ _ H) as (p' & f' & Hs & He).
  exists p', f'. split; [now apply wait_clock_spin|exact He].
Qed.

Lemma SPIF_set (v : Z) : tst (Z.setbit v SPIF) (bit SPIF) = true.
Proof.
  rewrite tst_bit by (unfold SPIF; lia). apply Z.setbit_eq. unfold SPIF. lia.
Qed.

Lemma run_S (miso : nat -> Z) (fuel : nat) (l : label) (s : avr) :
  run miso (S fuel) l s =
  match block miso l s with
  | Hang => Stalled
  | Goto L_main_loop s' => Done s'
  | Goto l' s' => run miso fuel l' s'
  end.
Proof. reflexivity. Qed.

Lemma card_bytes_S (miso : nat -> Z) (k n : nat) :
  card_bytes miso k (S n) = u8 (miso k) :: card_bytes miso (S k) n.
Proof. reflexivity. Qed.

Lemma read_loop_run (miso : nat -> Z) :
  forall (n : nat) (s : avr),
    byte_count s = Z.of_nat n -> Z.of_nat n < 65536 ->
    tst (SPSR s) (bit SPIF) = true ->
    (n + 2 <= edges (clk (pin_d s)) (cur s :: future s))%nat ->
    exists s',
      run miso (S n) L_read_loop s = Done s' /\
      trace s' = trace s
                 ++ flat_map present (SPDR s :: card_bytes miso (miso_n s) n) ++ release /\
      mosi s' = mosi s ++ repeat 0xFF n /\
      miso_n s' = (miso_n s + n)%nat /\
      bus_idle s' /\ PORTB s' = PORTB s /\ SPCR s' = SPCR s.
Proof.
  induction n as [|n IH]; intros s Hc Hlt Hf He.
  - rewrite run_S. cbn [block]. unfold read_loop, wait_SPIF. rewrite Hf. regs.
    match goal with |- context [wait_clock ?r ?st] =>
      destruct (wait_clock_edges r st 1) as (p1 & f1 & Hw & He1); [regs; lia|rewrite Hw]
    end.
    regs. rewrite Hc. cbn [Z.of_nat Z.eqb negb].
    match goal with |- context [wait_clock ?r ?st] =>
      destruct (wait_clock_edges r st 0) as (p2 & f2 & Hw2 & He2); [regs; lia|rewrite Hw2]
    end.
    eexists. split; [reflexivity|]. unfold bus_idle. regs.
    repeat split.
    + cbn [card_bytes seq map flat_map present release app].
      rewrite <- !app_assoc. reflexivity.
    + cbn [repeat]. now rewrite app_nil_r.
    + lia.
  - rewrite run_S. cbn [block]. unfold read_loop, wait_SPIF. rewrite Hf. regs.
    match goal with |- context [wait_clock ?r ?st] =>
      destruct (wait_clock_edges r st (n + 2)) as (p1 & f1 & Hw & He1); [regs; lia|rewrite Hw]
    end.
    regs. rewrite Hc.
    replace (Z.of_nat (S n) =? 0) with false by (symmetry; apply Z.eqb_neq; lia).
    cbn [negb].
    replace (u16 (Z.of_nat (S n) - 1)) with (Z.of_nat n) by (rewrite u16_small; lia).
    match goal with |- context [run miso (S n) L_read_loop ?st] =>
      destruct (IH st) as (s' & Hrun & Htr & Hmo & Hn & Hidle & HB & HS)
    end.
    + reflexivity.
    + lia.
    + regs. apply SPIF_set.
    + regs. exact He1.
    + exists s'. split; [exact Hrun|]. regs.
      repeat split; try assumption; try apply Hidle.
      * rewrite Htr. regs. rewrite card_bytes_S. cbn [flat_map present app].
        rewrite <- !app_assoc. reflexivity.
      * rewrite Hmo. regs. cbn [repeat]. rewrite <- app_assoc. reflexivity.
      * rewrite Hn. regs. lia.
Qed.

Lemma driven_present (bs : list Z) (rest : list event) :
  driven true (flat_map present bs ++ rest) = bs ++ driven true rest.
Proof.
  induction bs as [|b bs IH]; [reflexivity|].
  cbn [flat_map present app driven]. now rewrite IH.
Qed.

Lemma driven_read_events (pind c : Z) (bytes : list Z) :
  driven false (read_events pind c bytes) = bytes.
Proof.
  unfold read_events. cbn [app driven]. change (0x3F =? 0) with false. cbn [negb].
  rewrite driven_present. unfold release. cbn [driven]. rewrite Z.eqb_refl. cbn [negb].
  apply app_nil_r.
Qed.

Lemma read_phase_run (miso : nat -> Z) (c : Z) (s : avr) :
  0 <= c <= 8191 ->
  byte_count s = c ->
  (Z.to_nat c + 2 <= edges (clk (PIND (cur s))) (future s))%nat ->
  let bytes := card_bytes miso (miso_n s) (Z.to_nat c + 1) in
  let events := read_events (PIND (cur s)) c bytes in
  exists s',
    run miso (Z.to_nat c + 2) L_do_read s = Done s' /\
    trace s' = trace s ++ events /\
    driven false events = bytes /\
    length bytes = (Z.to_nat c + 1)%nat /\
    mosi s' = mosi s ++ repeat 0xFF (Z.to_nat c + 1) /\
    bus_idle s'.
Proof.
  intros Hr Hc He bytes events.
  replace (Z.to_nat c + 2)%nat with (S (S (Z.to_nat c))) in * by lia.
  rewrite run_S. cbn [block]. unfold do_read.
  match goal with |- context [run miso (S (Z.to_nat c)) L_read_loop ?st] =>
    destruct (read_loop_run miso (Z.to_nat c) st)
      as (s' & Hrun & Htr & Hmo & Hn & Hidle & _)
  end.
  - regs. lia.
  - lia.
  - regs. apply SPIF_set.
  - regs. rewrite edges_same. lia.
  - exists s'. split; [exact Hrun|]. regs.
    assert (Hb : bytes = u8 (miso (miso_n s)) :: card_bytes miso (S (miso_n s)) (Z.to_nat c)).
    { subst bytes. replace (Z.to_nat c + 1)%nat with (S (Z.to_nat c)) by lia.
      apply card_bytes_S. }
    repeat split.
    + rewrite Htr. regs. subst events. unfold read_events. rewrite Hb, Hc.
      cbn [flat_map present app]. rewrite <- !app_assoc. reflexivity.
    + apply driven_read_events.
    + subst bytes. unfold card_bytes. now rewrite length_map, length_seq.
    + rewrite Hmo. regs. replace (Z.to_nat c + 1)%nat with (S (Z.to_nat c)) by lia.
      cbn [repeat]. rewrite <- app_assoc. reflexivity.
    + apply Hidle.
    + apply Hidle.
    + apply Hidle.
    + apply Hidle.
Qed.

(** *** The Read transfer phase in time *)

Lemma skipn_new (A : Type) (l e : list A) : skipn (length l) (l ++ e) = e.
Proof. now rewrite skipn_app, skipn_all, Nat.sub_diag. Qed.

Lemma wait_clock_unfold (ref : Z) (s : avr) :
  wait_clock ref s =
  match spin (clk ref) (cur s) (future s) with
  | Some (p, f) => Some (set_time p f s)
  | None => None
  end.
Proof. reflexivity. Qed.

Lemma instants_S (n : nat) (lvl : bool) (p : pins) (f : list pins) :
  instants (S n) lvl p f =
  match spin lvl p f with
  | None => []
  | Some (p', f') => (p', f') :: instants n (clk (PIND p')) p' f'
  end.
Proof. reflexivity. Qed.

(** Reduce projections of updated states in four hypotheses. *)
Ltac regs_goal_in H1 H2 H3 H4 :=
  cbn [PORTB DDRB PORTC DDRC PORTD DDRD SPCR SPSR SPDR pin_c pin_d next_port_d
       next_port_c byte_count cur future miso_n mosi trace
       set_PORTB set_PORTC set_DDRC set_PORTD set_DDRD set_SPCR set_pin_c set_pin_d
       set_next_port_d set_next_port_c set_byte_count set_time write_SPDR read_SPDR
       negb fst snd now] in H1, H2, H3, H4.

(** Reduce the statements of the timed blocks. *)
Ltac stamps :=
  unfold stamp, now; cbn [stamp_wait fst snd]; regs;
  repeat (rewrite skipn_new || rewrite skipn_all);
  cbn [map]; rewrite ?app_nil_r.

Lemma timed_read_loop_untimed (miso : nat -> Z) (t : timed) :
  match timed_read_loop miso t with
  | TGoto L_read_loop t' => read_loop miso (fst t) = Goto L_read_loop (fst t')
  | TGoto L_main_loop t' => read_loop miso (fst t) = Goto L_main_loop (fst t')
  | TGoto _ _ => False
  | THang => read_loop miso (fst t) = Hang
  end.
Proof.
  destruct t as [s log]. unfold timed_read_loop, read_loop, stamp_wait, wait_SPIF, wait_clock.
  repeat (repeat progress (cbn [fst snd stamp]; regs);
          match goal with
          | |- context [spin ?a ?b ?c] => destruct (spin a b c) as [[? ?]|]
          | |- context [tst ?a ?b] => destruct (tst a b)
          | |- context [Z.eqb ?a ?b] => destruct (Z.eqb a b)
          end);
  repeat progress (cbn [fst snd stamp]; regs); reflexivity.
Qed.

Lemma timed_read_loops_untimed (miso : nat -> Z) (fuel : nat) :
  forall t, untimed (timed_read_loops miso fuel t) = run miso fuel L_read_loop (fst t).
Proof.
  induction fuel as [|fuel IH]; intros t; [reflexivity|].
  rewrite run_S. cbn [timed_read_loops block].
  pose proof (timed_read_loop_untimed miso t) as H.
  destruct (timed_read_loop miso t) as [[] t'|]; try contradiction; rewrite H.
  - reflexivity.
  - apply IH.
  - reflexivity.
Qed.

Lemma timed_read_phase_untimed (miso : nat -> Z) (fuel : nat) (t : timed) :
  untimed (timed_read_phase miso fuel t) = run miso fuel L_do_read (fst t).
Proof.
  destruct fuel as [|fuel]; [reflexivity|].
  rewrite run_S. cbn [timed_read_phase timed_do_read block]. unfold do_read.
  rewrite timed_read_loops_untimed. destruct t as [s log]. reflexivity.
Qed.

Lemma last_nonempty (A : Type) (l : list A) (i d d' : A) :
  last (i :: l) d = last (i :: l) d'.
Proof.
  revert i. induction l as [|j l IH]; intros i; [reflexivity|].
  change (last (j :: l) d = last (j :: l) d'). apply IH.
Qed.

Lemma timed_read_loops_S (miso : nat -> Z) (fuel : nat) (t : timed) :
  timed_read_loops miso (S fuel) t =
  match timed_read_loop miso t with
  | THang => TStalled
  | TGoto L_main_loop t' => TDone t'
  | TGoto _ t' => timed_read_loops miso fuel t'
  end.
Proof. reflexivity. Qed.

Lemma timed_read_loops_log (miso : nat -> Z) :
  forall (n : nat) (s : avr) (log : list (instant * event)),
    byte_count s = Z.of_nat n -> Z.of_nat n < 65536 ->
    tst (SPSR s) (bit SPIF) = true ->
    (n + 2 <= edges (clk (pin_d s)) (cur s :: future s))%nat ->
    let insts := instants (n + 2) (clk (pin_d s)) (cur s) (future s) in
    exists t',
      timed_read_loops miso (S n) (s, log) = TDone t' /\
      snd t' = log ++ read_log insts (SPDR s :: card_bytes miso (miso_n s) n) /\
      length insts = (n + 2)%nat /\
      now (fst t') = last insts (now s).
Proof.
  induction n as [|n IH]; intros s log Hc Hlt Hf He; cbv zeta.
  - destruct (spin_edges _ _ _ 1%nat He) as (p1 & f1 & E1 & He1).
    destruct (spin_edges _ _ _ 0%nat He1) as (p2 & f2 & E2 & _).
    cbn [Nat.add]. rewrite instants_S, E1, instants_S, E2. cbn [instants].
    rewrite timed_read_loops_S. unfold timed_read_loop, stamp_wait, wait_SPIF.
    cbn [fst]. rewrite Hf. stamps.
    rewrite wait_clock_unfold. regs. rewrite E1. stamps.
    rewrite Hc. cbn [Z.of_nat Z.eqb negb].
    rewrite wait_clock_unfold. regs. rewrite E2. stamps. eexists. split; [reflexivity|]. stamps.
    cbn [read_log card_bytes seq map present release app last length].
    rewrite <- !app_assoc. repeat split.
  - change (S n + 2)%nat with (S (n + 2)) in *.
    destruct (spin_edges _ _ _ (n + 2)%nat He) as (p1 & f1 & E1 & He1).
    rewrite instants_S, E1.
    rewrite timed_read_loops_S. unfold timed_read_loop, stamp_wait, wait_SPIF.
    cbn [fst]. rewrite Hf. stamps.
    rewrite wait_clock_unfold. regs. rewrite E1. stamps.
    rewrite Hc.
    replace (Z.of_nat (S n) =? 0) with false by (symmetry; apply Z.eqb_neq; lia).
    cbn [negb]. stamps.
    replace (u16 (Z.of_nat (S n) - 1)) with (Z.of_nat n) by (rewrite u16_small; lia).
    match goal with |- context [timed_read_loops miso (S n) (?st, ?lg)] =>
      destruct (IH st lg) as (t' & Hrun & Hlog & Hlen & Hnow)
    end.
    + reflexivity.
    + lia.
    + regs. apply SPIF_set.
    + regs. exact He1.
    + unfold now in *. regs_goal_in Hlog Hlen Hnow Hrun.
      exists t'. split; [exact Hrun|].
      rewrite Hlog, card_bytes_S. cbn [read_log present map app length].
      rewrite <- !app_assoc. repeat split.
      * now rewrite Hlen.
      * rewrite Hnow.
        destruct (instants (n + 2) (clk (PIND p1)) p1 f1) as [|i r];
          [cbn in Hlen; lia|].
        change (last ((p1, f1) :: i :: r) (cur s, future s))
          with (last (i :: r) (cur s, future s)).
        apply last_nonempty.
Qed.

Lemma read_log_events (insts : list instant) :
  forall bytes,
    length insts = S (length bytes) ->
    map snd (read_log insts bytes) = flat_map present bytes ++ release.
Proof.
  induction insts as [|i insts IH]; intros bytes H; [discriminate|].
  destruct bytes as [|b bytes]; cbn [read_log flat_map app].
  - cbn. reflexivity.
  - rewrite map_app, IH by (cbn in H; lia). cbn. reflexivity.
Qed.

(** C1 (as the firmware behaves): entered with decoded count [c] in
    [0, 8191], and with the host clocking at least [c + 2] steps, the Read
    transfer phase runs to completion: it shifts exactly [c + 1] filler bytes
    to the card and presents the [c + 1] bytes the card returns, in order
    and one per clocked step: the k-th byte is put on the ports at the
    instant right after the k-th clock edge.  At the instant right after edge
    [c + 2] it releases both data buses and puts the busy/idle line at its
    idle level, and is back at frame wait.  With [c = 0] it presents one
    byte. *)
Theorem read_transfer (miso : nat -> Z) (c : Z) (s : avr) :
  0 <= c <= 8191 ->
  byte_count s = c ->
  (Z.to_nat c + 2 <= edges (clk (PIND (cur s))) (future s))%nat ->
  let bytes := card_bytes miso (miso_n s) (Z.to_nat c + 1) in
  let events := read_events (PIND (cur s)) c bytes in
  let insts := instants (Z.to_nat c + 2) (clk (PIND (cur s))) (cur s) (future s) in
  exists s' log,
    run miso (Z.to_nat c + 2) L_do_read s = Done s' /\
    timed_read_phase miso (Z.to_nat c + 2) (s, []) = TDone (s', log) /\
    log = map (pair (now s)) (read_entry (PIND (cur s)) c) ++ read_log insts bytes /\
    length insts = (Z.to_nat c + 2)%nat /\
    map snd log = events /\
    now s' = last insts (now s) /\
    trace s' = trace s ++ events /\
    driven false events = bytes /\
    length bytes = (Z.to_nat c + 1)%nat /\
    mosi s' = mosi s ++ repeat 0xFF (Z.to_nat c + 1) /\
    bus_idle s'.
Proof.
  intros Hr Hc He bytes events insts.
  destruct (read_phase_run miso c s Hr Hc He)
    as (s' & Hrun & Htr & Hdr & Hlen & Hmo & Hidle).
  fold bytes in Htr, Hdr, Hlen. fold events in Htr, Hdr.
  pose proof (timed_read_phase_untimed miso (Z.to_nat c + 2) (s, [])) as Hu.
  cbn [fst] in Hu. rewrite Hrun in Hu.
  assert (Ht : exists t',
    timed_read_phase miso (Z.to_nat c + 2) (s, []) = TDone t' /\
    snd t' = map (pair (now s)) (read_entry (PIND (cur s)) c) ++ read_log insts bytes /\
    length insts = (Z.to_nat c + 2)%nat /\
    now (fst t') = last insts (now s)).
  { subst insts bytes.
    replace (Z.to_nat c + 2)%nat with (S (S (Z.to_nat c))) by lia.
    cbn [timed_read_phase timed_do_read]. stamps.
    match goal with |- context [timed_read_loops miso (S (Z.to_nat c)) (?st, ?lg)] =>
      destruct (timed_read_loops_log miso (Z.to_nat c) st lg)
        as (t' & Hrun' & Hlog & Hl & Hnow)
    end.
    - regs. lia.
    - lia.
    - regs. apply SPIF_set.
    - regs. rewrite edges_same. lia.
    - unfold now in *. regs_goal_in Hlog Hl Hnow Hrun'.
      replace (S (S (Z.to_nat c))) with (Z.to_nat c + 2)%nat by lia.
      replace (Z.to_nat c + 1)%nat with (S (Z.to_nat c)) by lia.
      rewrite card_bytes_S.
      exists t'. split; [exact Hrun'|]. rewrite Hlog, Hc. unfold read_entry.
      cbn [map app]. repeat split; assumption. }
  destruct Ht as ([s'' log] & Hrun' & Hlog & Hl & Hnow). cbn [fst snd] in Hlog, Hnow.
  rewrite Hrun' in Hu. cbn [untimed fst] in Hu. inversion Hu; subst s''.
  exists s', log. repeat split; try assumption; try apply Hidle.
  rewrite Hlog, map_app, map_map. cbn [snd]. rewrite map_id.
  rewrite read_log_events by (rewrite Hl, Hlen; lia).
  reflexivity.
Qed.

(** ** Concrete runs *)

Import Samples.

Lemma read_transfer_witness :
  let bytes := card_bytes card (miso_n read2) (Z.to_nat 2 + 1) in
  let events := read_events (PIND (cur read2)) 2 bytes in
  let insts :=
    instants (Z.to_nat 2 + 2) (clk (PIND (cur read2))) (cur read2) (future read2) in
  exists s' log,
    run card (Z.to_nat 2 + 2) L_do_read read2 = Done s' /\
    timed_read_phase card (Z.to_nat 2 + 2) (read2, []) = TDone (s', log) /\
    log = map (pair (now read2)) (read_entry (PIND (cur read2)) 2) ++ read_log insts bytes /\
    length insts = (Z.to_nat 2 + 2)%nat /\
    map snd log = events /\
    now s' = last insts (now read2) /\
    trace s' = trace read2 ++ events /\
    driven false events = bytes /\
    length bytes = (Z.to_nat 2 + 1)%nat /\
    mosi s' = mosi read2 ++ repeat 0xFF (Z.to_nat 2 + 1) /\
    bus_idle s'.
Proof.
  apply (read_transfer card 2 read2).
  - lia.
  - reflexivity.
  - vm_compute. lia.
Defined.

(** C1 as stated fails: entered with count 0, the Read transfer phase
    presents one card byte, not zero. *)
Lemma read_count0_presents_one_byte :
  byte_count read0 = 0 /\
  match run card 2 L_do_read read0 with
  | Done s' =>
      driven false (trace s') = [0xA0] /\
      length (driven false (trace s')) <> Z.to_nat (byte_count read0)
  | _ => False
  end.
Proof. vm_compute. repeat split. discriminate. Qed.

Lemma frame_decoding_witness :
  (exists s', header hdr_45 = Goto L_do_read s' /\ byte_count s' = 5) /\
  (exists s', header hdr_A1_C3 = Goto L_do_read s' /\ byte_count s' = 0x1C3) /\
  (exists s', header hdr_C1 = Goto L_main_loop s' /\ SPCR s' = SPCR_fast).
Proof.
  split; [|split].
  - destruct (frame_decoding hdr_45 (mkPins 0x05 0x60) [])
      as [H _]; [reflexivity | vm_compute; repeat split; discriminate |].
    destruct (H eq_refl) as (s' & Hh & Hc & _).
    exists s'. split; [exact Hh | exact Hc].
  - destruct (frame_decoding hdr_A1_C3 (mkPins 0x21 0xA0) [mkPins 0x03 0xC0])
      as [_ [H _]]; [reflexivity | vm_compute; repeat split; discriminate |].
    destruct (H eq_refl eq_refl (mkPins 0x03 0xC0) [] eq_refl)
      as (s' & Hh & Hc & _); [vm_compute; repeat split; discriminate |].
    exists s'. split; [exact Hh | exact Hc].
  - destruct (frame_decoding hdr_C1 (mkPins 0x01 0xE0) [])
      as [_ [_ H]]; [reflexivity | vm_compute; repeat split; discriminate |].
    destruct (H eq_refl eq_refl eq_refl) as (s' & Hh & Hc & _).
    exists s'. split; [exact Hh | exact Hc].
Defined.

(** C2 as stated fails: for the header bytes 0x80, 0x40 the second byte has
    bit 6 set and bits 1-5 of the first are zero, which the specification
    reads as a clock-rate command; the firmware starts a Write transfer with
    count 64. *)
Lemma frame_decoding_not_by_byte1 :
  spec_frame_decoding (bus_byte (mkPins 0 0xA0)) (bus_byte (mkPins 0 0x40)) = ClockRate false /\
  match header hdr_80_40 with
  | Goto L_do_write s' => byte_count s' = 64 /\ future s' = []
  | _ => False
  end.
Proof. vm_compute. repeat split. Qed.

Lemma unrecognised_header_ignored_witness :
  exists s',
    header hdr_C2 = Goto L_main_loop s' /\
    cur s' = mkPins 0x02 0xE0 /\ future s' = [mkPins 0 0x40] /\
    SPCR s' = SPCR hdr_C2 /\ SPSR s' = SPSR hdr_C2 /\ byte_count s' = byte_count hdr_C2 /\
    quiet hdr_C2 s'.
Proof.
  apply (unrecognised_header_ignored hdr_C2 (mkPins 0x02 0xE0) [mkPins 0 0x40]).
  - reflexivity.
  - reflexivity.
  - reflexivity.
  - vm_compute. discriminate.
Defined.

(** C5 as stated fails: the header bytes 0x82, 0x40 have the top bit of
    byte0 set, bit 6 of byte1 set and bits 1-5 of byte0 not all zero, yet the
    firmware enters the Write transfer phase with count 0x240. *)
Lemma unrecognised_by_byte1_is_transferred :
  Z.testbit (bus_byte (mkPins 0x02 0xA0)) 7 = true /\
  Z.testbit (bus_byte (mkPins 0 0x40)) 6 = true /\
  Z.land (bus_byte (mkPins 0x02 0xA0)) 0x3E <> 0 /\
  match header hdr_82_40 with
  | Goto L_do_write s' => byte_count s' = 0x240
  | _ => False
  end.
Proof. vm_compute. repeat split. discriminate. Qed.

(** C4 as stated fails: with a card in the socket at power-up the detect
    line is low, and before any transition the interrupt line is low too. *)
Lemma detect_mirror_not_inverse_at_start :
  Z.testbit (PORTB (main_init idle_pins [])) ACK_BIT
  <> negb (Z.testbit pinb_card_inserted CD_BIT).
Proof. vm_compute. discriminate. Qed.

End AvrFacts.

(** * Part IV: properties of the host driver *)

Module DeviceFacts.
Import Device.

(** ** The disk-change interrupt *)

Lemma hw_isr_unbound (g : globals) : sw_int g = NULL -> hw_isr g = g.
Proof. unfold hw_isr. intros ->. reflexivity. Qed.

Lemma hw_isr_sw_int (g : globals) : sw_int (hw_isr g) = sw_int g.
Proof. unfold hw_isr. destruct (sw_int g =? NULL); reflexivity. Qed.

Lemma hw_isr_bound (g : globals) :
  sw_int g <> NULL ->
  disk_state (hw_isr g) = (if disk_state g =? 0 then 1 else 0) /\
  calls (hw_isr g) = calls g ++ [C_Cause (sw_int g)].
Proof.
  intros H. unfold hw_isr.
  destruct (Z.eqb_spec (sw_int g) NULL) as [E|_]; [contradiction|].
  split; reflexivity.
Qed.

Lemma iter_hw_isr_sw_int (N : nat) (g : globals) :
  sw_int (Nat.iter N hw_isr g) = sw_int g.
Proof.
  induction N as [|N IH]; [reflexivity|].
  cbn [Nat.iter nat_rect]. now rewrite hw_isr_sw_int.
Qed.

(** C3 (as the driver behaves): starting from Present, N consecutive edges
    of the interrupt line leave the shadow state at Present when N is even
    and Absent when N is odd, and schedule N notifications, provided a
    Change Notification Binding is installed; with no binding installed the
    edges schedule nothing and leave the shadow state as it was. *)
Theorem presence_toggle (g : globals) (N : nat) :
  disk_state g = Present ->
  disk_state (Nat.iter N hw_isr g) =
    (if sw_int g =? NULL then Present else if Nat.even N then Present else Absent) /\
  calls (Nat.iter N hw_isr g) =
    calls g ++ (if sw_int g =? NULL then [] else repeat (C_Cause (sw_int g)) N).
Proof.
  intros Hp. destruct (Z.eqb_spec (sw_int g) NULL) as [E|E].
  - assert (Hit : Nat.iter N hw_isr g = g).
    { induction N as [|N IH]; [reflexivity|].
      cbn [Nat.iter nat_rect]. fold (Nat.iter N hw_isr g).
      rewrite IH. now apply hw_isr_unbound. }
    rewrite Hit, app_nil_r. split; [exact Hp|reflexivity].
  - induction N as [|N [IHd IHc]].
    + cbn [Nat.iter nat_rect Nat.even repeat]. rewrite app_nil_r.
      split; [exact Hp|reflexivity].
    + cbn [Nat.iter nat_rect]. fold (Nat.iter N hw_isr g).
      assert (Hb : sw_int (Nat.iter N hw_isr g) <> NULL)
        by now rewrite iter_hw_isr_sw_int.
      destruct (hw_isr_bound _ Hb) as [Hd Hc].
      rewrite Hd, Hc, IHd, IHc, iter_hw_isr_sw_int. split.
      * rewrite Nat.even_succ, <- Nat.negb_even.
        destruct (Nat.even N); reflexivity.
      * rewrite <- app_assoc. f_equal.
        change (C_Cause (sw_int g) :: repeat (C_Cause (sw_int g)) N)
          with (repeat (C_Cause (sw_int g)) (S N)).
        rewrite <- repeat_cons. reflexivity.
Qed.

Section DriverFacts.

Variable sdCardType_None : Z.
Variable SD_SECTOR_SHIFT : Z.
Variable sd_open : list call -> Z.
Variable sd_get_card_info : list call -> sd_card_info_t.
Variable sd_read : list call -> Z -> Z -> Z -> Z.
Variable sd_write : list call -> Z -> Z -> Z -> Z.

Local Abbreviation dispatch' :=
  (dispatch sdCardType_None SD_SECTOR_SHIFT sd_get_card_info sd_read sd_write).
Local Abbreviation BeginIO' :=
  (BeginIO sdCardType_None SD_SECTOR_SHIFT sd_get_card_info sd_read sd_write).
Local Abbreviation completed' :=
  (completed sdCardType_None SD_SECTOR_SHIFT sd_get_card_info sd_read sd_write).

(** [__BeginIO] on an initialised driver: the dispatch on the request with
    its error cleared, then the reply unless the request is quick. *)
Lemma BeginIO_dispatch (g : globals) (iostd : IOStdReq) (geom : DriveGeometry) :
  ctx g <> NULL ->
  BeginIO' g (Some iostd) geom =
  let '(g1, r, geom1) := dispatch' g (set_io_Error 0 iostd) geom in
  (if negb (tst (io_Flags r) IOF_QUICK) then log C_ReplyMsg g1 else g1, Some r, geom1).
Proof.
  intros H. unfold BeginIO.
  destruct (Z.eqb_spec (ctx g) NULL) as [E|_]; [contradiction|].
  destruct (dispatch' g (set_io_Error 0 iostd) geom) as [[g1 r] geom1].
  destruct (negb (tst (io_Flags r) IOF_QUICK)); reflexivity.
Qed.

Lemma completed_dispatch (g : globals) (iostd : IOStdReq) (geom : DriveGeometry) :
  ctx g <> NULL ->
  completed' g iostd geom = snd (fst (dispatch' g (set_io_Error 0 iostd) geom)).
Proof.
  intros H. unfold completed.
  rewrite BeginIO_dispatch by assumption.
  destruct (dispatch' g (set_io_Error 0 iostd) geom) as [[g1 r] geom1]. reflexivity.
Qed.

(** ** Requests *)

(** Decide the comparisons between command numbers in the goal. *)
Ltac pick_case :=
  repeat match goal with
         | |- context [Z.eqb ?a ?b] =>
           let v := eval vm_compute in (Z.eqb a b) in
           match v with
           | true => change (Z.eqb a b) with true
           | false => change (Z.eqb a b) with false
           end
         end;
  cbn [orb]; cbv beta iota.

(** C6: a block read or write request on the initialised driver completes
    with the full requested length as transferred and no error when the card
    operation returns 0, and with zero bytes transferred and the generic
    error [TDERR_NotSpecified] when it does not. *)
Theorem read_write_completion (g : globals) (iostd : IOStdReq) (geom : DriveGeometry) :
  ctx g <> NULL ->
  io_Command iostd = CMD_READ \/ io_Command iostd = CMD_WRITE ->
  let block := Z.shiftr (io_Offset iostd) SD_SECTOR_SHIFT in
  let count := Z.shiftr (io_Length iostd) SD_SECTOR_SHIFT in
  let status :=
    if io_Command iostd =? CMD_READ
    then sd_read (calls g) (io_Data iostd) block count
    else sd_write (calls g) (io_Data iostd) block count in
  let r := completed' g iostd geom in
  io_Actual r = (if status =? 0 then io_Length iostd else 0) /\
  io_Error r = (if status =? 0 then 0 else TDERR_NotSpecified).
Proof.
  intros Hctx Hcmd block count status r. subst r status block count.
  rewrite completed_dispatch by assumption. unfold dispatch.
  cbn [io_Command set_io_Error io_Offset io_Length io_Data].
  destruct Hcmd as [-> | ->]; pick_case.
  - destruct (_ =? 0); split; reflexivity.
  - destruct (_ =? 0); split; reflexivity.
Qed.

(** C7: a geometry query on the initialised driver calls the card interface
    for the card information only, so it issues no Transaction.  With no
    card it fails with [TDERR_DiskChanged] ("no disk in the drive") and
    leaves the caller's record alone; with a card it succeeds with error 0
    and fills the record with sector size [1 << block_size] and total
    sectors [capacity >> block_size], flagged removable. *)
Theorem geometry_query (g : globals) (iostd : IOStdReq) (geom : DriveGeometry) :
  ctx g <> NULL ->
  io_Command iostd = TD_GETGEOMETRY ->
  let ci := sd_get_card_info (calls g) in
  let out := BeginIO' g (Some iostd) geom in
  let g' := fst (fst out) in
  let geom' := snd out in
  let r := completed' g iostd geom in
  filter is_transaction (calls g') = filter is_transaction (calls g) /\
  io_Actual r = 0 /\
  if type ci =? sdCardType_None
  then io_Error r = TDERR_DiskChanged /\ geom' = geom
  else io_Error r = 0 /\
       dg_SectorSize geom' = u32 (Z.shiftl 1 (block_size ci)) /\
       dg_TotalSectors geom' = u32 (Z.shiftr (capacity ci) (block_size ci)) /\
       dg_Cylinders geom' = dg_TotalSectors geom' /\
       dg_Flags geom' = DGF_REMOVABLE.
Proof.
  intros Hctx Hcmd ci out g' geom' r. subst r geom' g' out ci.
  rewrite completed_dispatch, BeginIO_dispatch by assumption. unfold dispatch.
  cbn [io_Command set_io_Error]. rewrite Hcmd.
  pick_case.
  unfold device_get_geometry.
  destruct (type (sd_get_card_info (calls g)) =? sdCardType_None); cbn [negb].
  - cbn [fst snd set_io_Error set_io_Actual io_Actual io_Error io_Flags].
    destruct (negb (tst (io_Flags iostd) IOF_QUICK)); cbn [fst snd log calls];
      rewrite ?filter_app; cbn [filter is_transaction]; rewrite ?app_nil_r;
      repeat split.
  - cbn [fst snd set_io_Error set_io_Actual io_Actual io_Error io_Flags].
    destruct (negb (tst (io_Flags iostd) IOF_QUICK)); cbn [fst snd log calls];
      rewrite ?filter_app; cbn [filter is_transaction]; rewrite ?app_nil_r;
      repeat split.
Qed.

(** C9: a protection-status request on the initialised driver completes
    with actual value 0 and no error, without asking the card interface
    anything. *)
Theorem protstatus_always_zero (g : globals) (iostd : IOStdReq) (geom : DriveGeometry) :
  ctx g <> NULL ->
  io_Command iostd = TD_PROTSTATUS ->
  let out := BeginIO' g (Some iostd) geom in
  let r := completed' g iostd geom in
  io_Actual r = 0 /\ io_Error r = 0 /\
  calls (fst (fst out)) =
    calls g ++ (if tst (io_Flags iostd) IOF_QUICK then [] else [C_ReplyMsg]).
Proof.
  intros Hctx Hcmd out r. subst r out.
  rewrite completed_dispatch, BeginIO_dispatch by assumption. unfold dispatch.
  cbn [io_Command set_io_Error]. rewrite Hcmd.
  pick_case.
  cbn [fst snd set_io_Error set_io_Actual io_Actual io_Error io_Flags].
  destruct (tst (io_Flags iostd) IOF_QUICK); cbn [negb fst snd log calls];
    rewrite ?app_nil_r; repeat split.
Qed.

(** C10: an open request for a unit other than 0, or one for which the card
    interface fails to open, fails with [IOERR_OPENFAIL] in the request and
    as return value; the request's unit pointer and the unit are left as
    they were. *)
Theorem open_fails (g : globals) (iostd : IOStdReq) (unit_no flags : Z) :
  unit_no <> 0 \/ sd_open (calls g) <> 0 ->
  exists g',
    UserDevOpen sd_open g (Some iostd) unit_no flags
      = Some (g', set_io_Error IOERR_OPENFAIL iostd, IOERR_OPENFAIL) /\
    io_Error (set_io_Error IOERR_OPENFAIL iostd) = IOERR_OPENFAIL /\
    io_Unit (set_io_Error IOERR_OPENFAIL iostd) = io_Unit iostd /\
    ctx_mem g' = ctx_mem g /\ ctx g' = ctx g.
Proof.
  intros H. unfold UserDevOpen.
  destruct (Z.eqb_spec unit_no 0) as [E0|N0].
  - destruct H as [H|H]; [contradiction|].
    destruct (Z.eqb_spec (sd_open (calls g)) 0) as [E1|_]; [contradiction|].
    eexists. repeat split.
  - eexists. repeat split.
Qed.

(** Registration installs the binding passed in [io_Data], whatever was
    installed before; a null [io_Data] leaves none installed. *)
Lemma addchangeint_installs (g : globals) (iostd : IOStdReq) (geom : DriveGeometry) :
  ctx g <> NULL ->
  io_Command iostd = TD_ADDCHANGEINT ->
  sw_int (fst (fst (BeginIO' g (Some iostd) geom))) = io_Data iostd.
Proof.
  intros Hctx Hcmd. rewrite BeginIO_dispatch by assumption. unfold dispatch.
  cbn [io_Command set_io_Error]. rewrite Hcmd.
  pick_case.
  cbn [io_Data set_io_Error io_Flags].
  destruct (Z.eqb_spec (io_Data iostd) NULL) as [E|E]; cbn [negb fst snd io_Flags set_io_Error];
    destruct (negb (tst (io_Flags iostd) IOF_QUICK)); cbn [log set_sw_int sw_int];
    congruence.
Qed.

(** De-registration leaves the installed binding in place. *)
Lemma remchangeint_no_effect (g : globals) (iostd : IOStdReq) (geom : DriveGeometry) :
  ctx g <> NULL ->
  io_Command iostd = TD_REMCHANGEINT ->
  sw_int (fst (fst (BeginIO' g (Some iostd) geom))) = sw_int g.
Proof.
  intros Hctx Hcmd. rewrite BeginIO_dispatch by assumption. unfold dispatch.
  cbn [io_Command set_io_Error]. rewrite Hcmd.
  pick_case.
  cbn [io_Flags set_io_Error].
  destruct (negb (tst (io_Flags iostd) IOF_QUICK)); reflexivity.
Qed.

End DriverFacts.

(** ** Concrete runs *)

Import Samples.

Lemma presence_toggle_witness :
  disk_state (Nat.iter 3 hw_isr bound) =
    (if sw_int bound =? NULL then Present else if Nat.even 3 then Present else Absent) /\
  calls (Nat.iter 3 hw_isr bound) =
    calls bound ++ (if sw_int bound =? NULL then [] else repeat (C_Cause (sw_int bound)) 3).
Proof.
  apply (presence_toggle bound 3). reflexivity.
Defined.

(** C3 as stated fails: with no binding installed one edge leaves the
    shadow state at Present, although the number of edges is odd. *)
Lemma presence_not_toggled_unbound :
  sw_int ready = NULL /\
  disk_state ready = Present /\
  disk_state (Nat.iter 1 hw_isr ready) <> Absent.
Proof. vm_compute. repeat split. discriminate. Qed.

Lemma read_write_completion_witness :
  (io_Actual (completed no_card_type 9 info_1G sd_ok sd_ok ready
                (request CMD_READ 0x8000 0 512) blank_geometry) = 512 /\
   io_Error (completed no_card_type 9 info_1G sd_ok sd_ok ready
                (request CMD_READ 0x8000 0 512) blank_geometry) = 0) /\
  (io_Actual (completed no_card_type 9 info_1G sd_ok sd_fail ready
                (request CMD_WRITE 0x8000 0 512) blank_geometry) = 0 /\
   io_Error (completed no_card_type 9 info_1G sd_ok sd_fail ready
                (request CMD_WRITE 0x8000 0 512) blank_geometry) = TDERR_NotSpecified).
Proof.
  split.
  - apply (read_write_completion no_card_type 9 info_1G sd_ok sd_ok ready
             (request CMD_READ 0x8000 0 512) blank_geometry).
    + vm_compute. discriminate.
    + left. reflexivity.
  - apply (read_write_completion no_card_type 9 info_1G sd_ok sd_fail ready
             (request CMD_WRITE 0x8000 0 512) blank_geometry).
    + vm_compute. discriminate.
    + right. reflexivity.
Defined.

Lemma geometry_query_witness :
  (let out := BeginIO no_card_type 9 info_absent sd_ok sd_ok ready
                (Some (request TD_GETGEOMETRY 0x8000 0 0)) blank_geometry in
   let r := completed no_card_type 9 info_absent sd_ok sd_ok ready
                (request TD_GETGEOMETRY 0x8000 0 0) blank_geometry in
   filter is_transaction (calls (fst (fst out))) = [] /\
   io_Error r = TDERR_DiskChanged /\ snd out = blank_geometry) /\
  (let out := BeginIO no_card_type 9 info_1G sd_ok sd_ok ready
                (Some (request TD_GETGEOMETRY 0x8000 0 0)) blank_geometry in
   let r := completed no_card_type 9 info_1G sd_ok sd_ok ready
                (request TD_GETGEOMETRY 0x8000 0 0) blank_geometry in
   io_Error r = 0 /\ dg_SectorSize (snd out) = 512 /\ dg_TotalSectors (snd out) = 2097152).
Proof.
  split.
  - destruct (geometry_query no_card_type 9 info_absent sd_ok sd_ok ready
                (request TD_GETGEOMETRY 0x8000 0 0) blank_geometry)
      as (Hf & _ & He & Hg); [vm_compute; discriminate | reflexivity |].
    cbv zeta. split; [exact Hf | split; [exact He | exact Hg]].
  - destruct (geometry_query no_card_type 9 info_1G sd_ok sd_ok ready
                (request TD_GETGEOMETRY 0x8000 0 0) blank_geometry)
      as (_ & _ & He & Hs & Ht & _); [vm_compute; discriminate | reflexivity |].
    cbv zeta. split; [exact He | split; [exact Hs | exact Ht]].
Defined.

Lemma protstatus_always_zero_witness :
  io_Actual (completed no_card_type 9 info_absent sd_fail sd_fail ready
               (request TD_PROTSTATUS 0 0 0) blank_geometry) = 0 /\
  io_Error (completed no_card_type 9 info_absent sd_fail sd_fail ready
               (request TD_PROTSTATUS 0 0 0) blank_geometry) = 0.
Proof.
  destruct (protstatus_always_zero no_card_type 9 info_absent sd_fail sd_fail ready
              (request TD_PROTSTATUS 0 0 0) blank_geometry)
    as (Ha & He & _); [vm_compute; discriminate | reflexivity |].
  split; [exact Ha | exact He].
Defined.

Lemma open_fails_witness :
  (exists g',
     UserDevOpen sd_open_ok ready (Some (request 0 0 0 0)) 1 0
       = Some (g', set_io_Error IOERR_OPENFAIL (request 0 0 0 0), IOERR_OPENFAIL)) /\
  (exists g',
     UserDevOpen sd_open_fail ready (Some (request 0 0 0 0)) 0 0
       = Some (g', set_io_Error IOERR_OPENFAIL (request 0 0 0 0), IOERR_OPENFAIL)).
Proof.
  split.
  - destruct (open_fails sd_open_ok ready (request 0 0 0 0) 1 0) as (g' & H & _).
    + left. discriminate.
    + exists g'. exact H.
  - destruct (open_fails sd_open_fail ready (request 0 0 0 0) 0 0) as (g' & H & _).
    + right. vm_compute. discriminate.
    + exists g'. exact H.
Defined.

(** C8 at the failing input: a binding is registered and then de-registered;
    it is still installed afterwards, and the next edge of the interrupt
    line still raises it. *)
Lemma remchangeint_keeps_binding :
  let g1 := fst (fst (BeginIO no_card_type 9 info_1G sd_ok sd_ok ready
                        (Some (request TD_ADDCHANGEINT 0x1234 0 0)) blank_geometry)) in
  let g2 := fst (fst (BeginIO no_card_type 9 info_1G sd_ok sd_ok g1
                        (Some (request TD_REMCHANGEINT 0x1234 0 0)) blank_geometry)) in
  sw_int g1 = 0x1234 /\ sw_int g2 = 0x1234 /\
  calls (hw_isr g2) = calls g2 ++ [C_Cause 0x1234].
Proof. vm_compute. repeat split. Qed.

End DeviceFacts.

(** * Part V: further properties of the relay controller *)

Module AvrExtra.
Import Avr AvrFacts.

(** Reduce projections of updated states in a hypothesis. *)
Ltac regs_in H :=
  cbn [PORTB DDRB PORTC DDRC PORTD DDRD SPCR SPSR SPDR pin_c pin_d next_port_d
       next_port_c byte_count cur future miso_n mosi trace
       set_PORTB set_PORTC set_DDRC set_PORTD set_DDRD set_SPCR set_pin_c set_pin_d
       set_next_port_d set_next_port_c set_byte_count set_time write_SPDR read_SPDR
       negb fst snd] in H.

(** ** Clocked steps *)

Lemma sampled_S (n : nat) (lvl : bool) (p : pins) (f : list pins) :
  sampled (S n) lvl p f =
  match spin lvl p f with
  | None => None
  | Some (p', f') =>
    match sampled n (clk (PIND p')) p' f' with
    | None => None
    | Some (ps, rest) => Some (p' :: ps, rest)
    end
  end.
Proof. reflexivity. Qed.

Lemma sampled_length (n : nat) :
  forall lvl p f ps rest, sampled n lvl p f = Some (ps, rest) -> length ps = n.
Proof.
  induction n as [|n IH]; intros lvl p f ps rest H.
  - cbn in H. inversion H. reflexivity.
  - rewrite sampled_S in H. destruct (spin lvl p f) as [[p' f']|]; [|discriminate].
    destruct (sampled n (clk (PIND p')) p' f') as [[qs r]|] eqn:E; [|discriminate].
    inversion H; subst. cbn [length]. f_equal. eapply IH. exact E.
Qed.

Lemma wait_clock_eq (ref : Z) (s : avr) :
  wait_clock ref s =
  match spin (clk ref) (cur s) (future s) with
  | Some (p, f) => Some (set_time p f s)
  | None => None
  end.
Proof. reflexivity. Qed.

Lemma host_byte_wf (p : pins) : wf_pins p -> host_byte p = bus_byte p.
Proof.
  intros W. unfold host_byte, bus_byte.
  rewrite <- (pinc_six_bits p W) at 1. rewrite (bus_byte_low p 0x3F) by reflexivity.
  destruct W as [Wc Wd].
  pose proof (land_le (PIND p) 0xC0 ltac:(lia)) as H1.
  pose proof (land_le (PINC p) 0x3F ltac:(lia)) as H2.
  assert (H : 0 <= Z.lor (Z.land (PIND p) 0xC0) (Z.land (PINC p) 0x3F) < 2 ^ 8).
  { apply lor_below; change (2 ^ 8) with 256; lia. }
  unfold u8. apply Z.mod_small. exact H.
Qed.

Lemma host_bytes_wf (ps : list pins) :
  Forall wf_pins ps -> map host_byte ps = map bus_byte ps.
Proof.
  induction 1 as [|p ps W _ IH]; [reflexivity|].
  cbn [map]. now rewrite IH, host_byte_wf.
Qed.

(** ** The Write transfer phase *)

Lemma write_loop_run (miso : nat -> Z) :
  forall (n : nat) (s : avr) (ps : list pins) (pe : pins) (fe : list pins),
    byte_count s = Z.of_nat n -> Z.of_nat n < 65536 ->
    sampled (S n) (clk (pin_d s)) (cur s) (future s) = Some (ps, (pe, fe)) ->
    exists s',
      run miso (S n) L_write_loop s = Done s' /\
      mosi s' = mosi s ++ map host_byte ps /\
      trace s' = trace s ++ [W_PORTD 0] /\
      cur s' = pe /\ future s' = fe /\
      miso_n s' = (miso_n s + S n)%nat /\
      DDRC s' = DDRC s /\ DDRD s' = DDRD s /\ PORTC s' = PORTC s /\ PORTD s' = 0 /\
      PORTB s' = PORTB s /\ SPCR s' = SPCR s.
Proof.
  induction n as [|n IH]; intros s ps pe fe Hc Hlt Hs;
    rewrite sampled_S in Hs;
    destruct (spin (clk (pin_d s)) (cur s) (future s)) as [[p1 f1]|] eqn:Hsp;
    try discriminate;
    rewrite run_S; cbn [block]; unfold write_loop;
    rewrite wait_clock_eq, Hsp; regs;
    unfold wait_SPIF; regs; rewrite SPIF_set; regs; rewrite Hc.
  - cbn in Hs. inversion Hs; subst. cbn [Z.of_nat Z.eqb negb].
    eexists. split; [reflexivity|]. regs. cbn [map].
    repeat split. lia.
  - destruct (sampled (S n) (clk (PIND p1)) p1 f1) as [[qs r]|] eqn:Hq; [|discriminate].
    inversion Hs; subst.
    replace (Z.of_nat (S n) =? 0) with false by (symmetry; apply Z.eqb_neq; lia).
    cbn [negb].
    replace (u16 (Z.of_nat (S n) - 1)) with (Z.of_nat n) by (rewrite u16_small; lia).
    match goal with |- context [run miso (S n) L_write_loop ?st] =>
      destruct (IH st qs pe fe)
        as (s' & Hrun & Hmo & Htr & Hcu & Hfu & Hn & H1 & H2 & H3 & H4 & H5 & H6)
    end.
    + reflexivity.
    + lia.
    + regs. exact Hq.
    + exists s'. split; [exact Hrun|].
      rewrite Hmo, Htr, Hn, H1, H2, H3, H5, H6. regs. cbn [map].
      rewrite <- app_assoc. repeat split; try assumption. lia.
Qed.

(** Entered with count [c], the Write transfer phase samples the bus at
    each of the next [c + 1] clock edges and forwards the [c + 1] bytes it
    finds there to the card, in order; they are the bytes the host presents
    on D0..D7.  It signals busy on PD4 for the duration, never drives the
    data lines, and is back at frame wait right after the last edge. *)
Theorem write_transfer (miso : nat -> Z) (c : Z) (s : avr)
    (ps : list pins) (pe : pins) (fe : list pins) :
  0 <= c <= 65535 ->
  byte_count s = c ->
  sampled (Z.to_nat c + 1) (clk (pin_d s)) (cur s) (future s) = Some (ps, (pe, fe)) ->
  exists s',
    run miso (Z.to_nat c + 2) L_do_write s = Done s' /\
    mosi s' = mosi s ++ map host_byte ps /\
    length ps = (Z.to_nat c + 1)%nat /\
    (Forall wf_pins ps -> map host_byte ps = map bus_byte ps) /\
    trace s' = trace s ++ [W_PORTD (bit IDLE_BIT); W_PORTD 0] /\
    cur s' = pe /\ future s' = fe /\
    DDRC s' = DDRC s /\ DDRD s' = DDRD s /\ PORTC s' = PORTC s /\ PORTD s' = 0.
Proof.
  intros Hr Hc Hs.
  replace (Z.to_nat c + 2)%nat with (S (S (Z.to_nat c))) by lia.
  replace (Z.to_nat c + 1)%nat with (S (Z.to_nat c)) in * by lia.
  rewrite run_S. cbn [block]. unfold do_write.
  destruct (write_loop_run miso (Z.to_nat c) (set_PORTD (bit IDLE_BIT) s) ps pe fe)
    as (s' & Hrun & Hmo & Htr & Hcu & Hfu & _ & H1 & H2 & H3 & H4 & _).
  - regs. lia.
  - lia.
  - regs. exact Hs.
  - exists s'. split; [exact Hrun|].
    rewrite Hmo, Htr, H1, H2, H3. regs. rewrite <- app_assoc.
    repeat split; try assumption.
    + eapply sampled_length. exact Hs.
    + apply host_bytes_wf.
Qed.

(** ** The Read transfer phase and the clock *)

Lemma read_loop_clocking (miso : nat -> Z) :
  forall (n : nat) (s : avr),
    byte_count s = Z.of_nat n -> Z.of_nat n < 65536 ->
    tst (SPSR s) (bit SPIF) = true ->
    match sampled (n + 2) (clk (pin_d s)) (cur s) (future s) with
    | Some (ps, (pe, fe)) =>
        exists s', run miso (S n) L_read_loop s = Done s' /\ cur s' = pe /\ future s' = fe
    | None =>
        forall fuel,
          run miso fuel L_read_loop s = Stalled \/ run miso fuel L_read_loop s = OutOfFuel
    end.
Proof.
  induction n as [|n IH]; intros s Hc Hlt Hf.
  - cbn [Nat.add sampled].
    assert (Hblock : read_loop miso s =
      match spin (clk (pin_d s)) (cur s) (future s) with
      | None => Hang
      | Some (p1, f1) =>
        match spin (clk (PIND p1)) p1 f1 with
        | None => Hang
        | Some (p2, f2) => read_loop miso s
        end
      end).
    { unfold read_loop, wait_SPIF. rewrite Hf. regs. rewrite wait_clock_eq. regs.
      destruct (spin (clk (pin_d s)) (cur s) (future s)) as [[p1 f1]|]; [|reflexivity].
      regs. rewrite Hc. cbn [Z.eqb negb]. rewrite wait_clock_eq. regs.
      destruct (spin (clk (PIND p1)) p1 f1) as [[p2 f2]|]; reflexivity. }
    destruct (spin (clk (pin_d s)) (cur s) (future s)) as [[p1 f1]|] eqn:E1.
    + destruct (spin (clk (PIND p1)) p1 f1) as [[p2 f2]|] eqn:E2.
      * rewrite run_S. cbn [block].
        unfold read_loop, wait_SPIF. rewrite Hf. regs. rewrite wait_clock_eq. regs.
        rewrite E1. regs. rewrite Hc. cbn [Z.eqb negb]. rewrite wait_clock_eq. regs.
        rewrite E2. eexists. split; [reflexivity|]. regs. split; reflexivity.
      * cbv beta iota. intros [|fuel]; [right; reflexivity|left].
        rewrite run_S. cbn [block]. rewrite Hblock. reflexivity.
    + cbv beta iota. intros [|fuel]; [right; reflexivity|left].
      rewrite run_S. cbn [block]. rewrite Hblock. reflexivity.
  - change (S n + 2)%nat with (S (n + 2)). rewrite sampled_S.
    destruct (spin (clk (pin_d s)) (cur s) (future s)) as [[p1 f1]|] eqn:E1.
    + assert (Hblock : exists s1,
        read_loop miso s = Goto L_read_loop s1 /\
        byte_count s1 = Z.of_nat n /\ tst (SPSR s1) (bit SPIF) = true /\
        pin_d s1 = PIND p1 /\ cur s1 = p1 /\ future s1 = f1).
      { unfold read_loop, wait_SPIF. rewrite Hf. regs. rewrite wait_clock_eq. regs.
        rewrite E1. regs. rewrite Hc.
        replace (Z.of_nat (S n) =? 0) with false by (symmetry; apply Z.eqb_neq; lia).
        cbn [negb].
        replace (u16 (Z.of_nat (S n) - 1)) with (Z.of_nat n) by (rewrite u16_small; lia).
        eexists. split; [reflexivity|]. regs.
        repeat split. apply SPIF_set. }
      destruct Hblock as (s1 & Hb & Hc1 & Hf1 & Hd1 & Hcu1 & Hfu1).
      specialize (IH s1 Hc1 ltac:(lia) Hf1). rewrite Hd1, Hcu1, Hfu1 in IH.
      destruct (sampled (n + 2) (clk (PIND p1)) p1 f1) as [[ps [pe fe]]|].
      * destruct IH as (s' & Hrun & Hcu & Hfu). exists s'.
        rewrite run_S. cbn [block]. rewrite Hb. repeat split; assumption.
      * intros [|fuel]; [right; reflexivity|].
        rewrite run_S. cbn [block]. rewrite Hb. apply IH.
    + cbv beta iota. intros [|fuel]; [right; reflexivity|left].
      rewrite run_S. cbn [block]. unfold read_loop, wait_SPIF. rewrite Hf. regs.
      rewrite wait_clock_eq. regs. rewrite E1. reflexivity.
Qed.

(** The Read transfer phase with count [c] needs exactly [c + 2] clock
    edges.  When the host supplies them the phase ends right after the last
    one; when the host stops toggling the clock earlier there is no timeout:
    the firmware never gets back to frame wait, however long it runs. *)
Theorem read_transfer_clocking (miso : nat -> Z) (c : Z) (s : avr) :
  0 <= c <= 65535 ->
  byte_count s = c ->
  match sampled (Z.to_nat c + 2) (clk (PIND (cur s))) (cur s) (future s) with
  | Some (ps, (pe, fe)) =>
      exists s',
        run miso (Z.to_nat c + 2) L_do_read s = Done s' /\ cur s' = pe /\ future s' = fe
  | None =>
      forall fuel s', run miso fuel L_do_read s <> Done s'
  end.
Proof.
  intros Hr Hc.
  pose proof (read_loop_clocking miso (Z.to_nat c)
    (set_DDRC 0x3F (set_PORTC (Z.land (byte_count s) 0x3F)
      (set_DDRD (Z.lor 0xC0 (bit IDLE_BIT))
        (set_PORTD (Z.lor (Z.land (PIND (cur s)) 0xC0) (bit IDLE_BIT))
          (set_pin_d (PIND (cur s)) (write_SPDR miso 0xFF s))))))) as H.
  regs. regs_in H.
  specialize (H ltac:(lia) ltac:(lia) (SPIF_set _)).
  destruct (sampled (Z.to_nat c + 2) (clk (PIND (cur s))) (cur s) (future s))
    as [[ps [pe fe]]|].
  - destruct H as (s' & Hrun & Hcu & Hfu). exists s'.
    replace (Z.to_nat c + 2)%nat with (S (S (Z.to_nat c))) by lia.
    rewrite run_S. cbn [block]. unfold do_read. regs.
    repeat split; assumption.
  - intros [|fuel] s'; [discriminate|].
    rewrite run_S. cbn [block]. unfold do_read. regs.
    destruct (H fuel) as [E|E]; rewrite E; discriminate.
Qed.

(** ** The interrupt handler and the main program *)

(** Case analysis on everything a block branches on. *)
Ltac block_cases :=
  repeat (regs;
          match goal with
          | |- context [spin ?a ?b ?c] => destruct (spin a b c) as [[? ?]|]
          | |- context [tst ?a ?b] => destruct (tst a b)
          | |- context [Z.eqb ?a ?b] => destruct (Z.eqb a b)
          end);
  regs.

(** The pin-change handler may run before a block or after it: control
    flow, port C and D, the SPI traffic and the time line are the same, and
    so is port B.  The handler does not disturb a transfer in progress. *)
Theorem isr_transparent (miso : nat -> Z) (l : label) (pinb : Z) (s : avr) :
  block miso l (ISR_PCINT0 pinb s) = after_isr pinb (block miso l s).
Proof.
  unfold ISR_PCINT0.
  destruct (tst pinb (bit CD_BIT)) eqn:E; destruct l;
    unfold block, main_loop, do_read1, do_read, read_loop, do_write1, do_write,
      write_loop, wait_clock, wait_SPIF; regs;
    block_cases; cbn [after_isr]; unfold ISR_PCINT0; rewrite ?E; reflexivity.
Qed.

Lemma idle_bit_set (v : Z) :
  Z.testbit (Z.lor (Z.land v 0xC0) (bit IDLE_BIT)) IDLE_BIT = true.
Proof.
  rewrite Z.lor_spec.
  replace (Z.testbit (bit IDLE_BIT) IDLE_BIT) with true by reflexivity.
  apply orb_true_r.
Qed.

Lemma block_lines_ok (miso : nat -> Z) (l l' : label) (s s' : avr) :
  lines_ok l s -> block miso l s = Goto l' s' -> lines_ok l' s'.
Proof.
  destruct l; unfold block, main_loop, do_read1, do_read, read_loop, do_write1,
    do_write, write_loop, wait_clock, wait_SPIF; regs; intros Hok;
  block_cases; intros H; inversion H; subst;
  unfold lines_ok, bus_idle in *; regs;
  repeat match goal with
         | Hc : _ /\ _ |- _ => destruct Hc
         end;
  repeat split; try assumption; try reflexivity; try apply idle_bit_set.
Qed.

Lemma isr_lines_ok (l : label) (pinb : Z) (s : avr) :
  lines_ok l s -> lines_ok l (ISR_PCINT0 pinb s).
Proof.
  unfold ISR_PCINT0. destruct (tst pinb (bit CD_BIT)); destruct l; exact (fun H => H).
Qed.

Lemma tick_lines_ok (miso : nat -> Z) (c : label * avr) (t : tick) :
  lines_ok (fst c) (snd c) ->
  lines_ok (fst (tick_step miso c t)) (snd (tick_step miso c t)).
Proof.
  intros H. destruct t as [|pinb]; cbn [tick_step].
  - destruct (block miso (fst c) (snd c)) as [l' s'|] eqn:E; [|exact H].
    cbn [fst snd]. eapply block_lines_ok; eassumption.
  - cbn [fst snd]. now apply isr_lines_ok.
Qed.

(** In every execution from reset, whatever the host, the card and the
    detect line do: at frame wait and while a header is decoded both data
    buses are released and PD4 signals idle; in the Write loop the firmware
    drives no data line and signals busy; only in the Read loop does it
    drive the data lines, with busy signalled. *)
Theorem bus_ownership (miso : nat -> Z) (p : pins) (f : list pins) (ts : list tick) :
  lines_ok (fst (ticks miso (L_main_loop, main_init p f) ts))
           (snd (ticks miso (L_main_loop, main_init p f) ts)).
Proof.
  assert (G : forall c, lines_ok (fst c) (snd c) ->
                        lines_ok (fst (ticks miso c ts)) (snd (ticks miso c ts))).
  { induction ts as [|t ts IH]; intros c H; [exact H|].
    cbn [ticks fold_left]. apply (IH (tick_step miso c t)). now apply tick_lines_ok. }
  apply G. cbn [fst snd lines_ok]. unfold bus_idle. repeat split.
Qed.

Lemma block_spi_config (miso : nat -> Z) (l l' : label) (s s' : avr) :
  spi_config_ok s -> block miso l s = Goto l' s' -> spi_config_ok s'.
Proof.
  destruct l; unfold block, main_loop, do_read1, do_read, read_loop, do_write1,
    do_write, write_loop, wait_clock, wait_SPIF; regs; intros (H1 & H2 & H3);
  block_cases; intros H; inversion H; subst;
  unfold spi_config_ok; regs; repeat split; auto.
Qed.

Lemma isr_spi_config (pinb : Z) (s : avr) :
  spi_config_ok s -> spi_config_ok (ISR_PCINT0 pinb s).
Proof.
  intros (H1 & H2 & H3). unfold ISR_PCINT0, spi_config_ok.
  destruct (tst pinb (bit CD_BIT)); regs; repeat split; try assumption.
  - now rewrite <- Z.land_assoc, Z.land_diag.
  - rewrite Z.land_lor_distr_l, H3.
    change (Z.land (bit ACK_BIT) (Z.lnot (bit ACK_BIT))) with 0.
    apply Z.lor_0_r.
Qed.

(** In every execution from reset the SPI stays enabled as master at one of
    the two clock rates, the directions of the port B lines stay as [main]
    set them, and no port B output other than ACK ever changes level. *)
Theorem spi_config_kept (miso : nat -> Z) (p : pins) (f : list pins) (ts : list tick) :
  spi_config_ok (snd (ticks miso (L_main_loop, main_init p f) ts)).
Proof.
  assert (G : forall c, spi_config_ok (snd c) -> spi_config_ok (snd (ticks miso c ts))).
  { induction ts as [|t ts IH]; intros c H; [exact H|].
    cbn [ticks fold_left]. apply (IH (tick_step miso c t)).
    destruct t as [|pinb]; cbn [tick_step].
    - destruct (block miso (fst c) (snd c)) as [l' s'|] eqn:E; [|exact H].
      cbn [snd]. eapply block_spi_config; eassumption.
    - cbn [snd]. now apply isr_spi_config. }
  apply G. cbn [snd]. unfold spi_config_ok. cbn. repeat split. now left.
Qed.

(** ** Taking over the data lines *)

Lemma low6_u16 (x : Z) : Z.land (u16 x) 0x3F = Z.land x 0x3F.
Proof.
  unfold u16. change 65536 with (2 ^ 16).
  rewrite <- Z.land_ones by lia. now rewrite <- Z.land_assoc.
Qed.

Lemma low6_shiftl8 (y : Z) : Z.land (Z.shiftl y 8) 0x3F = 0.
Proof.
  apply Z.bits_inj'. intros k Hk. rewrite Z.land_spec, Z.bits_0.
  destruct (Z.ltb_spec k 8).
  - now rewrite Z.shiftl_spec_low.
  - change 0x3F with (Z.ones 6). rewrite Z.ones_spec_high by lia. apply andb_false_r.
Qed.

Lemma Goto_state (l l' : label) (s s' : avr) : Goto l s = Goto l' s' -> s = s'.
Proof. intros H. now injection H. Qed.

Lemma header_count_low (s s1 : avr) :
  header s = Goto L_do_read s1 ->
  Z.land (byte_count s1) 0x3F = Z.land (PINC (cur s1)) 0x3F.
Proof.
  unfold header, main_loop, do_read1, do_write1, wait_clock.
  block_cases; intros H; try discriminate H;
    apply Goto_state in H; rewrite <- H; regs; try reflexivity.
  rewrite low6_u16, Z.land_lor_distr_l, low6_u16, low6_shiftl8, Z.lor_0_l.
  rewrite Z.land_lor_distr_l, <- Z.land_assoc.
  change (Z.land 0xC0 0x3F) with 0. now rewrite Z.land_0_r, Z.lor_0_l.
Qed.

(** When a Read header (of either shape) has been decoded and the firmware
    turns its data lines into outputs, the levels it starts to drive are the
    levels the host is still driving: the six low lines carry the low six
    bits of the last header byte and D6, D7 carry its two high bits. *)
Theorem read_entry_matches_host (miso : nat -> Z) (s s1 : avr) :
  header s = Goto L_do_read s1 ->
  exists s2,
    do_read miso s1 = Goto L_read_loop s2 /\
    cur s2 = cur s1 /\
    DDRC s2 = 0x3F /\ DDRD s2 = Z.lor 0xC0 (bit IDLE_BIT) /\
    Z.land (PORTC s2) (DDRC s2) = Z.land (PINC (cur s1)) 0x3F /\
    Z.land (PORTD s2) 0xC0 = Z.land (PIND (cur s1)) 0xC0.
Proof.
  intros H. apply header_count_low in H.
  eexists. split; [reflexivity|]. regs. repeat split.
  - rewrite <- Z.land_assoc. exact H.
  - rewrite Z.land_lor_distr_l, <- Z.land_assoc.
    change (Z.land (bit IDLE_BIT) 0xC0) with 0. apply Z.lor_0_r.
Qed.

(** ** Whole frames *)

Lemma spin_some_edges (lvl : bool) (f : list pins) :
  forall p p' f',
    spin lvl p f = Some (p', f') ->
    edges lvl (p :: f) = S (edges (clk (PIND p')) (p' :: f')).
Proof.
  induction f as [|q r IH]; intros p p' f'; rewrite spin_eq, edges_cons;
    destruct (Bool.eqb (clk (PIND p)) lvl); intros H; try discriminate.
  - inversion H; subst. now rewrite edges_same.
  - now apply IH.
  - inversion H; subst. now rewrite edges_same.
Qed.

Lemma sampled_edges (n : nat) :
  forall lvl p f ps rest,
    sampled n lvl p f = Some (ps, rest) -> (n <= edges lvl (p :: f))%nat.
Proof.
  induction n as [|n IH]; intros lvl p f ps rest H; [lia|].
  rewrite sampled_S in H.
  destruct (spin lvl p f) as [[p' f']|] eqn:E; [|discriminate].
  destruct (sampled n (clk (PIND p')) p' f') as [[qs r]|] eqn:Es; [|discriminate].
  rewrite (spin_some_edges _ _ _ _ _ E). apply IH in Es. lia.
Qed.

(** A whole short Write frame: from frame wait the host presents a header
    byte with bits 7 and 6 clear and count [c] in its low six bits, then
    [c + 1] payload bytes, one per clock edge.  The card receives exactly the
    payload, in order, and the firmware is back at frame wait with PD4 at
    idle right after the last payload edge. *)
Theorem short_write_frame (miso : nat -> Z) (c : Z) (s : avr)
    (p0 : pins) (ps : list pins) (pe : pins) (fe : list pins) :
  sampled (Z.to_nat c + 2) (clk (PIND (cur s))) (cur s) (future s)
    = Some (p0 :: ps, (pe, fe)) ->
  wf_pins p0 -> Forall wf_pins ps ->
  Z.testbit (bus_byte p0) 7 = false ->
  Z.testbit (bus_byte p0) 6 = false ->
  c = Z.land (bus_byte p0) 0x3F ->
  exists s',
    run miso (Z.to_nat c + 4) L_main_loop s = Done s' /\
    mosi s' = mosi s ++ map bus_byte ps /\
    length ps = (Z.to_nat c + 1)%nat /\
    trace s' = trace s ++ [W_PORTD (bit IDLE_BIT); W_PORTD 0] /\
    cur s' = pe /\ future s' = fe /\ PORTD s' = 0.
Proof.
  intros Hs W0 Wps H7 H6 Hc.
  assert (Hr : 0 <= c < 64).
  { subst c. pose proof (land_le (bus_byte p0) 0x3F ltac:(lia)). lia. }
  replace (Z.to_nat c + 2)%nat with (S (S (Z.to_nat c))) in Hs by lia.
  rewrite sampled_S in Hs.
  destruct (spin (clk (PIND (cur s))) (cur s) (future s)) as [[q0 f0]|] eqn:E0;
    [|discriminate].
  destruct (sampled (S (Z.to_nat c)) (clk (PIND q0)) q0 f0) as [[qs r]|] eqn:Es;
    [|discriminate].
  inversion Hs; subst q0 qs r. clear Hs.
  replace (Z.to_nat c + 4)%nat with (S (S (S (S (Z.to_nat c))))) by lia.
  rewrite run_S. cbn [block]. unfold main_loop.
  rewrite (wait_clock_spin _ _ _ _ E0). regs.
  rewrite tst_bit7, H7, tst_bit6, H6. regs.
  rewrite run_S. cbn [block]. unfold do_write1. regs.
  rewrite run_S. cbn [block]. unfold do_write.
  match goal with |- context [run miso (S (Z.to_nat c)) L_write_loop ?st] =>
    destruct (write_loop_run miso (Z.to_nat c) st ps pe fe)
      as (s' & Hrun & Hmo & Htr & Hcu & Hfu & _ & _ & _ & _ & H4 & _)
  end.
  - regs. rewrite <- (pinc_six_bits p0 W0). lia.
  - lia.
  - regs. exact Es.
  - exists s'. split; [exact Hrun|]. rewrite Hmo, Htr. regs.
    rewrite (host_bytes_wf ps Wps), <- app_assoc.
    repeat split; try assumption.
    rewrite (sampled_length _ _ _ _ _ _ Es). lia.
Qed.

(** A whole long Read frame: from frame wait the host presents two header
    bytes, the first with bit 7 set, bit 6 clear and bit 5 set, encoding count
    [c], and then clocks [c + 2] more steps.  The firmware presents the next
    [c + 1] bytes of the card, in order, releases the bus and is back at
    frame wait right after the last of these edges. *)
Theorem long_read_frame (miso : nat -> Z) (c : Z) (s : avr)
    (p0 p1 : pins) (ps : list pins) (pe : pins) (fe : list pins) :
  sampled (Z.to_nat c + 4) (clk (PIND (cur s))) (cur s) (future s)
    = Some (p0 :: p1 :: ps, (pe, fe)) ->
  wf_pins p0 -> wf_pins p1 ->
  Z.testbit (bus_byte p0) 7 = true ->
  Z.testbit (bus_byte p0) 6 = false ->
  Z.testbit (bus_byte p0) 5 = true ->
  c = Z.lor (Z.lor (Z.shiftl (Z.land (bus_byte p0) 0x1F) 8) (Z.land (bus_byte p1) 0xC0))
            (Z.land (bus_byte p1) 0x3F) ->
  let bytes := card_bytes miso (miso_n s) (Z.to_nat c + 1) in
  exists s',
    run miso (Z.to_nat c + 3) L_main_loop s = Done s' /\
    trace s' = trace s ++ read_events (PIND p1) c bytes /\
    driven false (read_events (PIND p1) c bytes) = bytes /\
    length bytes = (Z.to_nat c + 1)%nat /\
    cur s' = pe /\ future s' = fe /\ bus_idle s'.
Proof.
  intros Hs W0 W1 H7 H6 H5 Hc bytes.
  destruct (long_count p0 p1 W0 W1) as [Hcount Hr]. cbv zeta in Hcount, Hr.
  rewrite <- Hc in Hcount, Hr.
  replace (Z.to_nat c + 4)%nat with (S (S (Z.to_nat c + 2))) in Hs by lia.
  rewrite sampled_S in Hs.
  destruct (spin (clk (PIND (cur s))) (cur s) (future s)) as [[q0 f0]|] eqn:E0;
    [|discriminate].
  rewrite sampled_S in Hs.
  destruct (spin (clk (PIND q0)) q0 f0) as [[q1 f1]|] eqn:E1; [|discriminate].
  destruct (sampled (Z.to_nat c + 2) (clk (PIND q1)) q1 f1) as [[qs r]|] eqn:Es;
    [|discriminate].
  inversion Hs; subst q0 q1 qs r. clear Hs.
  replace (Z.to_nat c + 3)%nat with (S (S (S (Z.to_nat c)))) by lia.
  rewrite run_S. cbn [block]. unfold main_loop.
  rewrite (wait_clock_spin _ _ _ _ E0). regs.
  rewrite tst_bit7, H7. regs. rewrite tst_bit6, H6. regs.
  rewrite wait_clock_eq. regs. rewrite E1. regs.
  rewrite tst_bit5, H5, Hcount.
  rewrite run_S. cbn [block]. unfold do_read.
  match goal with |- context [run miso (S (Z.to_nat c)) L_read_loop ?st] =>
    set (st1 := st)
  end.
  assert (Hbc : byte_count st1 = Z.of_nat (Z.to_nat c)) by (subst st1; regs; lia).
  assert (Hsp : tst (SPSR st1) (bit SPIF) = true) by (subst st1; regs; apply SPIF_set).
  assert (Hpd : pin_d st1 = PIND p1) by reflexivity.
  assert (Hcu1 : cur st1 = p1) by reflexivity.
  assert (Hfu1 : future st1 = f1) by reflexivity.
  assert (Hmn : miso_n st1 = S (miso_n s)) by reflexivity.
  assert (Hrx : SPDR st1 = u8 (miso (miso_n s))) by reflexivity.
  assert (Htr1 : trace st1 = trace s ++
            [W_PORTD (Z.lor (Z.land (PIND p1) 0xC0) (bit IDLE_BIT));
             W_DDRD (Z.lor 0xC0 (bit IDLE_BIT)); W_PORTC (Z.land c 0x3F); W_DDRC 0x3F]).
  { subst st1. regs. rewrite <- !app_assoc. reflexivity. }
  pose proof (read_loop_clocking miso _ st1 Hbc ltac:(lia) Hsp) as Hclk.
  rewrite Hpd, Hcu1, Hfu1, Es in Hclk. destruct Hclk as (s' & Hrun & Hcu & Hfu).
  destruct (read_loop_run miso _ st1 Hbc ltac:(lia) Hsp)
    as (s'' & Hrun' & Htr & _ & _ & Hidle & _).
  { rewrite Hpd, Hcu1, Hfu1. apply sampled_edges in Es. exact Es. }
  rewrite Hrun in Hrun'. inversion Hrun'; subst s''. clear Hrun'.
  exists s'. split; [exact Hrun|].
  assert (Hb : bytes = u8 (miso (miso_n s)) :: card_bytes miso (S (miso_n s)) (Z.to_nat c)).
  { subst bytes. replace (Z.to_nat c + 1)%nat with (S (Z.to_nat c)) by lia.
    apply card_bytes_S. }
  repeat split; try assumption; try apply Hidle.
  - rewrite Htr, Htr1, Hrx, Hmn. unfold read_events. rewrite Hb.
    rewrite <- !app_assoc. reflexivity.
  - apply driven_read_events.
  - subst bytes. unfold card_bytes. now rewrite length_map, length_seq.
Qed.

(** ** Clock-rate commands *)

Lemma rate_header (s : avr) (p0 : pins) (f0 : list pins) :
  spin (clk (PIND (cur s))) (cur s) (future s) = Some (p0, f0) ->
  rate_command p0 ->
  header s =
  Goto L_main_loop
    (set_SPCR (rate_of p0) (set_pin_d (PIND p0) (set_pin_c (PINC p0) (set_time p0 f0 s)))).
Proof.
  intros Hspin (H7 & H6 & H15).
  unfold header, main_loop. rewrite (wait_clock_spin _ _ _ _ Hspin). regs.
  rewrite tst_bit7, H7. regs. rewrite tst_bit6, H6. regs.
  rewrite <- (bus_byte_low p0 0x3E), H15 by reflexivity.
  rewrite Z.eqb_refl, tst_bit0. unfold rate_of.
  destruct (Z.testbit (bus_byte p0) 0); reflexivity.
Qed.

(** Two clock-rate commands in a row: each takes one clocked step, the SPI
    ends at the rate the second one selects whatever it was before, so that
    repeating a command changes nothing; no port is written and nothing is
    exchanged with the card. *)
Theorem clock_rate_last_wins (s : avr) (p0 p1 : pins) (f0 f1 : list pins) :
  spin (clk (PIND (cur s))) (cur s) (future s) = Some (p0, f0) ->
  spin (clk (PIND p0)) p0 f0 = Some (p1, f1) ->
  rate_command p0 -> rate_command p1 ->
  exists s1 s2,
    header s = Goto L_main_loop s1 /\
    header s1 = Goto L_main_loop s2 /\
    SPCR s1 = rate_of p0 /\ SPCR s2 = rate_of p1 /\
    (Z.testbit (bus_byte p0) 0 = Z.testbit (bus_byte p1) 0 -> SPCR s2 = SPCR s1) /\
    cur s2 = p1 /\ future s2 = f1 /\ quiet s s2.
Proof.
  intros E0 E1 R0 R1.
  pose proof (rate_header s p0 f0 E0 R0) as H1.
  match type of H1 with _ = Goto _ ?st => set (s1 := st) in * end.
  assert (E1' : spin (clk (PIND (cur s1))) (cur s1) (future s1) = Some (p1, f1)) by exact E1.
  pose proof (rate_header s1 p1 f1 E1' R1) as H2.
  eexists. eexists. split; [exact H1|]. split; [exact H2|].
  split; [reflexivity|]. split; [reflexivity|].
  split; [intros Hb; subst s1; regs; unfold rate_of; now rewrite Hb|].
  unfold quiet. subst s1. regs. repeat split.
Qed.

(** ** Concrete runs *)

Import Samples.

Lemma write_transfer_witness :
  exists s',
    run card (Z.to_nat 2 + 2) L_do_write write2 = Done s' /\
    mosi s' = mosi write2 ++ [0x51; 0xA2; 0xF3] /\
    trace s' = trace write2 ++ [W_PORTD (bit IDLE_BIT); W_PORTD 0] /\
    future s' = [] /\ PORTD s' = 0.
Proof.
  destruct (write_transfer card 2 write2
              [mkPins 0x11 0x60; mkPins 0x22 0x80; mkPins 0x33 0xE0]
              (mkPins 0x33 0xE0) [])
    as (s' & Hrun & Hmo & _ & _ & Htr & _ & Hfu & _ & _ & _ & H4).
  - lia.
  - reflexivity.
  - reflexivity.
  - exists s'. repeat split; assumption.
Defined.

Lemma read_transfer_clocking_witness :
  (exists s', run card (Z.to_nat 2 + 2) L_do_read read2 = Done s' /\ future s' = []) /\
  run card 9 L_do_read read2_stalled <> Done read2_stalled.
Proof.
  split.
  - pose proof (read_transfer_clocking card 2 read2 ltac:(lia) eq_refl) as H.
    destruct H as (s' & Hrun & _ & Hfu). exists s'. split; assumption.
  - pose proof (read_transfer_clocking card 2 read2_stalled ltac:(lia) eq_refl) as H.
    exact (H 9%nat read2_stalled).
Defined.

Lemma read_entry_matches_host_witness :
  exists s2,
    do_read card hdr_45_decoded = Goto L_read_loop s2 /\
    Z.land (PORTC s2) (DDRC s2) = 0x05 /\
    Z.land (PORTD s2) 0xC0 = 0x40.
Proof.
  destruct (read_entry_matches_host card hdr_45 hdr_45_decoded)
    as (s2 & Hd & _ & _ & _ & Hc & Hp).
  - reflexivity.
  - exists s2. repeat split; assumption.
Defined.

Lemma short_write_frame_witness :
  exists s',
    run card (Z.to_nat 1 + 4) L_main_loop frame_write1 = Done s' /\
    mosi s' = mosi frame_write1 ++ [0x51; 0xA2] /\
    future s' = [] /\ PORTD s' = 0.
Proof.
  destruct (short_write_frame card 1 frame_write1 (mkPins 0x01 0x20)
              [mkPins 0x11 0x40; mkPins 0x22 0xA0] (mkPins 0x22 0xA0) [])
    as (s' & Hrun & Hmo & _ & _ & _ & Hfu & H4).
  - reflexivity.
  - vm_compute. repeat split; discriminate.
  - repeat constructor; discriminate.
  - reflexivity.
  - reflexivity.
  - reflexivity.
  - exists s'. repeat split; assumption.
Defined.

Lemma long_read_frame_witness :
  exists s',
    run card (Z.to_nat 1 + 3) L_main_loop frame_read1 = Done s' /\
    driven false (read_events 0 1 [0xA0; 0xA1]) = [0xA0; 0xA1] /\
    future s' = [] /\ bus_idle s'.
Proof.
  destruct (long_read_frame card 1 frame_read1 (mkPins 0x20 0xA0) (mkPins 0x01 0x00)
              [mkPins 0 0x20; mkPins 0 0; mkPins 0 0x20] (mkPins 0 0x20) [])
    as (s' & Hrun & _ & Hd & _ & _ & Hfu & Hidle).
  - reflexivity.
  - vm_compute. repeat split; discriminate.
  - vm_compute. repeat split; discriminate.
  - reflexivity.
  - reflexivity.
  - reflexivity.
  - reflexivity.
  - exists s'. repeat split; try assumption; apply Hidle.
Defined.

Lemma clock_rate_last_wins_witness :
  exists s1 s2,
    header two_rates = Goto L_main_loop s1 /\
    header s1 = Goto L_main_loop s2 /\
    SPCR s1 = SPCR_fast /\ SPCR s2 = SPCR_slow.
Proof.
  destruct (clock_rate_last_wins two_rates (mkPins 0x01 0xE0) (mkPins 0x00 0xC0)
              [mkPins 0x00 0xC0] [])
    as (s1 & s2 & H1 & H2 & Hr1 & Hr2 & _).
  - reflexivity.
  - reflexivity.
  - vm_compute. repeat split.
  - vm_compute. repeat split.
  - exists s1, s2. repeat split; assumption.
Defined.

End AvrExtra.

(** * Part VI: further properties of the host driver *)

Module DeviceExtra.
Import Device DeviceFacts.

Lemma hw_isr_ctx (g : globals) : ctx (hw_isr g) = ctx g.
Proof. unfold hw_isr. destruct (negb (sw_int g =? NULL)); reflexivity. Qed.

Lemma iter_hw_isr_parity (N : nat) (g : globals) :
  sw_int g <> NULL -> disk_state g = 0 ->
  disk_state (Nat.iter N hw_isr g) = (if Nat.even N then 0 else 1) /\
  ctx (Nat.iter N hw_isr g) = ctx g.
Proof.
  intros Hb H0. induction N as [|N [IHd IHc]]; [split; [exact H0|reflexivity]|].
  cbn [Nat.iter nat_rect]. fold (Nat.iter N hw_isr g).
  assert (Hb' : sw_int (Nat.iter N hw_isr g) <> NULL) by now rewrite iter_hw_isr_sw_int.
  destruct (hw_isr_bound _ Hb') as [Hd _]. rewrite Hd, IHd. split.
  - rewrite Nat.even_succ, <- Nat.negb_even. destruct (Nat.even N); reflexivity.
  - now rewrite hw_isr_ctx.
Qed.

Section DriverExtra.

Variable sdCardType_None : Z.
Variable SD_SECTOR_SHIFT : Z.
Variable sd_open : list call -> Z.
Variable sd_get_card_info : list call -> sd_card_info_t.
Variable sd_read : list call -> Z -> Z -> Z -> Z.
Variable sd_write : list call -> Z -> Z -> Z -> Z.

Local Abbreviation dispatch' :=
  (dispatch sdCardType_None SD_SECTOR_SHIFT sd_get_card_info sd_read sd_write).
Local Abbreviation BeginIO' :=
  (BeginIO sdCardType_None SD_SECTOR_SHIFT sd_get_card_info sd_read sd_write).
Local Abbreviation completed' :=
  (completed sdCardType_None SD_SECTOR_SHIFT sd_get_card_info sd_read sd_write).

(** The request with its reply, as [__BeginIO] sends it. *)
Local Abbreviation replied g iostd :=
  (if tst (io_Flags iostd) IOF_QUICK then g else log C_ReplyMsg g).

(** Reduce the accessors of requests and globals, and nothing else. *)
Ltac fields :=
  cbn [io_Unit io_Command io_Flags io_Error io_Actual io_Length io_Data io_Offset
       set_io_Unit set_io_Error set_io_Actual
       ctx ctx_mem sw_int disk_state calls set_sw_int set_disk_state set_ctx_mem log
       fst snd negb orb].

(** Case analysis along the [switch]. *)
Ltac switch_cases :=
  unfold dispatch, device_get_geometry; fields;
  repeat (match goal with
          | |- context [Z.eqb ?a ?b] => destruct (Z.eqb_spec a b)
          end; fields).

(** A command without a case in the [switch] is refused with [IOERR_NOCMD]:
    the request is otherwise returned as it came, nothing is asked of the
    card interface and no global changes. *)
Theorem unknown_command_refused (g : globals) (iostd : IOStdReq) (geom : DriveGeometry) :
  ctx g <> NULL ->
  ~ In (io_Command iostd) known_commands ->
  BeginIO' g (Some iostd) geom
    = (replied g iostd, Some (set_io_Error IOERR_NOCMD iostd), geom).
Proof.
  intros Hctx Hun. rewrite BeginIO_dispatch by assumption.
  assert (Hne : forall c, In c known_commands -> io_Command iostd <> c).
  { intros c Hin E. apply Hun. now rewrite E. }
  switch_cases;
    try match goal with
        | E : io_Command iostd = ?c |- _ =>
          exfalso; apply (Hne c); [cbn; tauto | exact E]
        end.
  destruct (tst (io_Flags iostd) IOF_QUICK); reflexivity.
Qed.

(** Reset, clear, update, motor, change-number, de-registration and format
    requests complete at once with no error and do nothing else: the request
    keeps its other fields (a change number is not reported), the card is
    not touched (nothing is formatted) and no global changes. *)
Theorem noop_commands_complete (g : globals) (iostd : IOStdReq) (geom : DriveGeometry) :
  ctx g <> NULL ->
  In (io_Command iostd) noop_commands ->
  BeginIO' g (Some iostd) geom
    = (replied g iostd, Some (set_io_Error 0 iostd), geom).
Proof.
  intros Hctx Hin. rewrite BeginIO_dispatch by assumption.
  cbn [In noop_commands] in Hin.
  unfold dispatch. fields.
  repeat match type of Hin with
         | _ \/ _ => destruct Hin as [Hin | Hin]
         end;
    try contradiction; rewrite <- Hin; cbn [Z.eqb Pos.eqb orb
      CMD_RESET CMD_CLEAR CMD_UPDATE TD_MOTOR TD_CHANGENUM TD_REMCHANGEINT TD_FORMAT
      TD_PROTSTATUS TD_ADDCHANGEINT TD_CHANGESTATE TD_REMOVE TD_GETDRIVETYPE
      TD_GETGEOMETRY CMD_WRITE CMD_READ];
    fields; destruct (tst (io_Flags iostd) IOF_QUICK); reflexivity.
Qed.

Lemma dispatch_calls (g : globals) (iostd : IOStdReq) (geom : DriveGeometry) :
  exists mid,
    calls (fst (fst (dispatch' g iostd geom))) = calls g ++ mid /\
    filter is_reply mid = [] /\ (length mid <= 1)%nat /\
    io_Flags (snd (fst (dispatch' g iostd geom))) = io_Flags iostd.
Proof.
  switch_cases;
    first [ exists []; rewrite app_nil_r; repeat split; cbn; lia
          | eexists [_]; repeat split; cbn; lia ].
Qed.

(** Every request on the initialised driver is answered exactly once: a
    request without [IOF_QUICK] gets one [ReplyMsg], a quick one gets none,
    and the reply comes after the at most one call to the card interface. *)
Theorem replied_once (g : globals) (iostd : IOStdReq) (geom : DriveGeometry) :
  ctx g <> NULL ->
  exists mid,
    calls (fst (fst (BeginIO' g (Some iostd) geom)))
      = calls g ++ mid ++ (if tst (io_Flags iostd) IOF_QUICK then [] else [C_ReplyMsg]) /\
    filter is_reply mid = [] /\ (length mid <= 1)%nat.
Proof.
  intros Hctx. rewrite BeginIO_dispatch by assumption.
  destruct (dispatch_calls g (set_io_Error 0 iostd) geom) as (mid & Hc & Hf & Hl & Hq).
  destruct (dispatch' g (set_io_Error 0 iostd) geom) as [[g1 r] geom1].
  cbn [fst snd] in *. exists mid. fold (set_io_Error 0 iostd) in Hq. cbn [io_Flags set_io_Error] in Hq.
  rewrite Hq. destruct (tst (io_Flags iostd) IOF_QUICK); cbn [negb fst snd log calls];
    rewrite Hc, ?app_nil_r, <- ?app_assoc; repeat split; assumption.
Qed.

Lemma BeginIO_keeps (g : globals) (ioreq : option IOStdReq) (geom : DriveGeometry) :
  let g' := fst (fst (BeginIO' g ioreq geom)) in
  disk_state g' = disk_state g /\ ctx g' = ctx g /\ ctx_mem g' = ctx_mem g /\
  (forall iostd, ioreq = Some iostd -> io_Command iostd <> TD_ADDCHANGEINT ->
                 sw_int g' = sw_int g).
Proof.
  cbv zeta. destruct ioreq as [iostd|]; [|repeat split].
  destruct (Z.eq_dec (ctx g) NULL) as [E|Hctx].
  - unfold BeginIO. destruct (Z.eqb_spec (ctx g) NULL); [|contradiction].
    cbn [fst snd]. repeat split.
  - rewrite BeginIO_dispatch by assumption.
    assert (H : let o := dispatch' g (set_io_Error 0 iostd) geom in
                disk_state (fst (fst o)) = disk_state g /\ ctx (fst (fst o)) = ctx g /\
                ctx_mem (fst (fst o)) = ctx_mem g /\
                (io_Command iostd <> TD_ADDCHANGEINT -> sw_int (fst (fst o)) = sw_int g)).
    { cbv zeta. switch_cases; repeat split; intros; try reflexivity; contradiction. }
    cbv zeta in H.
    destruct (dispatch' g (set_io_Error 0 iostd) geom) as [[g1 r] geom1].
    cbn [fst snd] in *. destruct H as (H1 & H2 & H3 & H4).
    destruct (negb (tst (io_Flags r) IOF_QUICK)); cbn [fst snd log disk_state ctx ctx_mem sw_int];
      repeat split; try assumption;
      intros i Hi Hn; inversion Hi; subst i; now apply H4.
Qed.

(** No request changes the shadow presence state, the driver context or
    the unit, and only a registration request changes the installed
    binding. *)
Theorem globals_kept (g : globals) (ioreq : option IOStdReq) (geom : DriveGeometry) :
  let g' := fst (fst (BeginIO' g ioreq geom)) in
  disk_state g' = disk_state g /\ ctx g' = ctx g /\ ctx_mem g' = ctx_mem g /\
  (forall iostd, ioreq = Some iostd -> io_Command iostd <> TD_ADDCHANGEINT ->
                 sw_int g' = sw_int g).
Proof. exact (BeginIO_keeps g ioreq geom). Qed.

(** A block read or write asks the card interface for exactly one
    operation, on the caller's buffer, starting at block
    [io_Offset / 2^SD_SECTOR_SHIFT] and for [io_Length / 2^SD_SECTOR_SHIFT]
    blocks, rounded down: the blocks asked for never cover more than the
    requested length and fall short of it when the length is not a whole
    number of blocks. *)
Theorem one_card_operation (g : globals) (iostd : IOStdReq) (geom : DriveGeometry) :
  ctx g <> NULL ->
  0 <= SD_SECTOR_SHIFT ->
  io_Command iostd = CMD_READ \/ io_Command iostd = CMD_WRITE ->
  let block := io_Offset iostd / 2 ^ SD_SECTOR_SHIFT in
  let count := io_Length iostd / 2 ^ SD_SECTOR_SHIFT in
  let op := if io_Command iostd =? CMD_READ
            then C_sd_read (io_Data iostd) block count
            else C_sd_write (io_Data iostd) block count in
  filter is_transaction (calls (fst (fst (BeginIO' g (Some iostd) geom))))
    = filter is_transaction (calls g) ++ [op] /\
  count * 2 ^ SD_SECTOR_SHIFT <= io_Length iostd < (count + 1) * 2 ^ SD_SECTOR_SHIFT.
Proof.
  intros Hctx Hs Hcmd block count op. subst op count block. split.
  - rewrite BeginIO_dispatch by assumption. unfold dispatch. fields.
    rewrite !Z.shiftr_div_pow2 by assumption.
    destruct Hcmd as [-> | ->];
      cbn [Z.eqb Pos.eqb orb CMD_RESET CMD_CLEAR CMD_UPDATE TD_MOTOR TD_CHANGENUM
           TD_REMCHANGEINT TD_FORMAT TD_PROTSTATUS TD_ADDCHANGEINT TD_CHANGESTATE
           TD_REMOVE TD_GETDRIVETYPE TD_GETGEOMETRY CMD_WRITE CMD_READ];
      destruct (_ =? 0); fields;
      destruct (negb (tst (io_Flags iostd) IOF_QUICK)); fields;
      rewrite ?filter_app; cbn [filter is_transaction]; rewrite ?app_nil_r; reflexivity.
  - assert (Hp : 0 < 2 ^ SD_SECTOR_SHIFT) by (apply Z.pow_pos_nonneg; lia).
    pose proof (Z.mul_div_le (io_Length iostd) _ Hp).
    pose proof (Z.mul_succ_div_gt (io_Length iostd) _ Hp). lia.
Qed.

(** Opening unit 0 on the initialised driver succeeds when the card
    interface opens: the request gets error 0 and the address of the
    driver's unit, and the unit is marked active with an open count of 1,
    whatever the count was before; the card interface is opened once. *)
Theorem open_succeeds (g : globals) (iostd : IOStdReq) (flags : Z) :
  ctx g <> NULL ->
  sd_open (calls g) = 0 ->
  exists g',
    UserDevOpen sd_open g (Some iostd) 0 flags
      = Some (g', set_io_Error 0 (set_io_Unit (addr_unit (ctx g)) iostd), 0) /\
    unit (ctx_mem g') = mkUnit UNITF_ACTIVE 1 /\
    device (ctx_mem g') = device (ctx_mem g) /\
    calls g' = calls g ++ [C_sd_open] /\
    ctx g' = ctx g /\ sw_int g' = sw_int g /\ disk_state g' = disk_state g.
Proof.
  intros Hctx Hop. unfold UserDevOpen. cbn [Z.eqb]. rewrite Hop. cbn [Z.eqb].
  fields. destruct (Z.eqb_spec (ctx g) NULL) as [E|_]; [contradiction|].
  eexists. repeat split.
Qed.

(** Registration, edges and poll together: after a binding was registered
    on a driver whose shadow state is Present, and the interrupt line made
    N edges, a presence poll reports Present when N is even and Absent when
    N is odd, with no error. *)
Theorem poll_reports_parity (g : globals) (reg poll : IOStdReq) (geom : DriveGeometry)
    (N : nat) :
  ctx g <> NULL ->
  disk_state g = Present ->
  io_Command reg = TD_ADDCHANGEINT ->
  io_Data reg <> NULL ->
  io_Command poll = TD_CHANGESTATE ->
  let g1 := fst (fst (BeginIO' g (Some reg) geom)) in
  let g2 := Nat.iter N hw_isr g1 in
  io_Actual (completed' g2 poll geom) = (if Nat.even N then Present else Absent) /\
  io_Error (completed' g2 poll geom) = 0.
Proof.
  intros Hctx Hp Hreg Hdata Hpoll g1 g2.
  assert (Hsw : sw_int g1 = io_Data reg)
    by (subst g1; now apply addchangeint_installs).
  destruct (BeginIO_keeps g (Some reg) geom) as (Hd & Hc & _). fold g1 in Hd, Hc.
  destruct (iter_hw_isr_parity N g1) as [Hpar Hctx2].
  { now rewrite Hsw. }
  { now rewrite Hd. }
  fold g2 in Hpar, Hctx2.
  rewrite completed_dispatch by (rewrite Hctx2, Hc; assumption).
  unfold dispatch. fields. rewrite Hpoll.
  cbn [Z.eqb Pos.eqb orb CMD_RESET CMD_CLEAR CMD_UPDATE TD_MOTOR TD_CHANGENUM
       TD_REMCHANGEINT TD_FORMAT TD_PROTSTATUS TD_ADDCHANGEINT TD_CHANGESTATE
       TD_REMOVE TD_GETDRIVETYPE TD_GETGEOMETRY CMD_WRITE CMD_READ].
  fields. split; [exact Hpar | reflexivity].
Qed.

End DriverExtra.

(** ** Concrete runs *)

Import Samples.

Lemma unknown_command_refused_witness :
  BeginIO no_card_type 9 info_1G sd_ok sd_ok ready (Some (request 10 0 0 0)) blank_geometry
    = (log C_ReplyMsg ready, Some (set_io_Error IOERR_NOCMD (request 10 0 0 0)),
       blank_geometry).
Proof.
  apply (unknown_command_refused no_card_type 9 info_1G sd_ok sd_ok ready
           (request 10 0 0 0) blank_geometry).
  - vm_compute. discriminate.
  - intros H. cbn in H. intuition discriminate.
Defined.

Lemma noop_commands_complete_witness :
  BeginIO no_card_type 9 info_1G sd_ok sd_ok ready
    (Some (request TD_FORMAT 0x8000 0 512)) blank_geometry
    = (log C_ReplyMsg ready, Some (set_io_Error 0 (request TD_FORMAT 0x8000 0 512)),
       blank_geometry).
Proof.
  apply (noop_commands_complete no_card_type 9 info_1G sd_ok sd_ok ready
           (request TD_FORMAT 0x8000 0 512) blank_geometry).
  - vm_compute. discriminate.
  - cbn. tauto.
Defined.

Lemma replied_once_witness :
  exists mid,
    calls (fst (fst (BeginIO no_card_type 9 info_1G sd_ok sd_ok ready
                       (Some (request CMD_READ 0x8000 0 512)) blank_geometry)))
      = calls ready ++ mid ++ [C_ReplyMsg] /\
    filter is_reply mid = [] /\ (length mid <= 1)%nat.
Proof.
  apply (replied_once no_card_type 9 info_1G sd_ok sd_ok ready
           (request CMD_READ 0x8000 0 512) blank_geometry).
  vm_compute. discriminate.
Defined.

Lemma globals_kept_witness :
  disk_state (fst (fst (BeginIO no_card_type 9 info_1G sd_ok sd_ok bound
                          (Some (request TD_REMOVE 0 0 0)) blank_geometry)))
    = disk_state bound /\
  sw_int (fst (fst (BeginIO no_card_type 9 info_1G sd_ok sd_ok bound
                      (Some (request TD_REMOVE 0 0 0)) blank_geometry)))
    = sw_int bound.
Proof.
  destruct (globals_kept no_card_type 9 info_1G sd_ok sd_ok bound
              (Some (request TD_REMOVE 0 0 0)) blank_geometry) as (Hd & _ & _ & Hs).
  split; [exact Hd|]. apply (Hs (request TD_REMOVE 0 0 0) eq_refl). discriminate.
Defined.

Lemma one_card_operation_witness :
  filter is_transaction
    (calls (fst (fst (BeginIO no_card_type 9 info_1G sd_ok sd_ok ready
                        (Some (request CMD_WRITE 0x8000 1024 700)) blank_geometry))))
    = [C_sd_write 0x8000 2 1] /\
  1 * 2 ^ 9 <= 700 < (1 + 1) * 2 ^ 9.
Proof.
  apply (one_card_operation no_card_type 9 info_1G sd_ok sd_ok ready
           (request CMD_WRITE 0x8000 1024 700) blank_geometry).
  - vm_compute. discriminate.
  - lia.
  - right. reflexivity.
Defined.

Lemma open_succeeds_witness :
  exists g',
    UserDevOpen sd_open_ok ready (Some (request 0 0 0 0)) 0 0
      = Some (g', set_io_Error 0 (set_io_Unit (addr_unit (ctx ready)) (request 0 0 0 0)), 0) /\
    unit (ctx_mem g') = mkUnit UNITF_ACTIVE 1.
Proof.
  destruct (open_succeeds sd_open_ok ready (request 0 0 0 0) 0) as (g' & H & Hu & _).
  - vm_compute. discriminate.
  - reflexivity.
  - exists g'. split; assumption.
Defined.

Lemma poll_reports_parity_witness :
  io_Actual
    (completed no_card_type 9 info_1G sd_ok sd_ok
       (Nat.iter 3 hw_isr
          (fst (fst (BeginIO no_card_type 9 info_1G sd_ok sd_ok ready
                       (Some (request TD_ADDCHANGEINT 0x1234 0 0)) blank_geometry))))
       (request TD_CHANGESTATE 0 0 0) blank_geometry)
    = Absent.
Proof.
  destruct (poll_reports_parity no_card_type 9 info_1G sd_ok sd_ok ready
              (request TD_ADDCHANGEINT 0x1234 0 0) (request TD_CHANGESTATE 0 0 0)
              blank_geometry 3) as [H _].
  - vm_compute. discriminate.
  - reflexivity.
  - reflexivity.
  - vm_compute. discriminate.
  - reflexivity.
  - exact H.
Defined.

End DeviceExtra.

(** * Part VII: initialisation and clean-up *)

Module LifecycleExtra.
Import Device Lifecycle.

Ltac parts :=
  cbn [G hw_int hw_int_mem ciabase os_calls set_G set_hw_int set_hw_int_mem set_ciabase
       log_os set_ctx set_ctx_mem ctx ctx_mem sw_int disk_state calls fst snd negb].

Section InitFacts.

Variable sizeof_device_ctx_t : Z.
Variable sizeof_Interrupt : Z.
Variable AllocMem : list os_call -> Z -> Z -> Z.
Variable OpenResource : list os_call -> Z.

Local Abbreviation UserDevInit' :=
  (UserDevInit sizeof_device_ctx_t sizeof_Interrupt AllocMem OpenResource).
Local Abbreviation UserDevCleanup' := (UserDevCleanup sizeof_device_ctx_t).
Local Abbreviation flags := (Z.lor MEMF_PUBLIC MEMF_CLEAR).


Lemma cleanup_effect (d : driver) :
  UserDevCleanup' (UserDevCleanup' d) = UserDevCleanup' d /\
  ctx (G (UserDevCleanup' d)) = NULL /\
  hw_int (UserDevCleanup' d) = hw_int d /\
  os_calls (UserDevCleanup' d)
    = os_calls d ++ (if ctx (G d) =? NULL then []
                     else [O_spi_shutdown; O_FreeMem (ctx (G d)) sizeof_device_ctx_t]).
Proof.
  unfold UserDevCleanup.
  destruct (Z.eqb_spec (ctx (G d)) NULL) as [E|E]; parts.
  - rewrite E. cbn [Z.eqb NULL negb]. rewrite app_nil_r. repeat split.
  - cbn [Z.eqb NULL negb]. rewrite <- app_assoc. repeat split.
Qed.

Lemma init_ctx (d : driver) (device : Z) :
  ctx (G (fst (UserDevInit' d device))) = AllocMem (os_calls d) sizeof_device_ctx_t flags.
Proof.
  unfold UserDevInit. parts.
  destruct (AllocMem (os_calls d) sizeof_device_ctx_t flags =? NULL); parts; [reflexivity|].
  unfold int_init. parts.
  destruct (AllocMem _ sizeof_Interrupt flags =? NULL); parts; [reflexivity|].
  destruct (OpenResource _ =? NULL); reflexivity.
Qed.

(** Clean-up shuts the SPI layer down and frees the context once, with the
    size it was allocated with; a second clean-up does nothing.  The
    interrupt node is not freed and the handler is not removed. *)
Theorem cleanup_once (d : driver) :
  UserDevCleanup' (UserDevCleanup' d) = UserDevCleanup' d /\
  ctx (G (UserDevCleanup' d)) = NULL /\
  hw_int (UserDevCleanup' d) = hw_int d /\
  os_calls (UserDevCleanup' d)
    = os_calls d ++ (if ctx (G d) =? NULL then []
                     else [O_spi_shutdown; O_FreeMem (ctx (G d)) sizeof_device_ctx_t]).
Proof. exact (cleanup_effect d). Qed.

Section WithCard.

Variable sdCardType_None : Z.
Variable SD_SECTOR_SHIFT : Z.
Variable sd_get_card_info : list call -> sd_card_info_t.
Variable sd_read : list call -> Z -> Z -> Z -> Z.
Variable sd_write : list call -> Z -> Z -> Z -> Z.

Local Abbreviation BeginIO' :=
  (BeginIO sdCardType_None SD_SECTOR_SHIFT sd_get_card_info sd_read sd_write).

(** A driver that was initialised and then cleaned up has returned to
    Exec exactly the context it was given, and from then on leaves every
    request as it came: no error is stored, nothing is asked of the card and
    no reply is sent.  The same holds after a failed initialisation. *)
Theorem requests_ignored_without_context (d : driver) (device : Z)
    (iostd : IOStdReq) (geom : DriveGeometry) :
  let a := AllocMem (os_calls d) sizeof_device_ctx_t flags in
  let d1 := fst (UserDevInit' d device) in
  let d2 := UserDevCleanup' d1 in
  BeginIO' (G d2) (Some iostd) geom = (G d2, Some iostd, geom) /\
  os_calls d2
    = os_calls d1 ++ (if a =? NULL then []
                      else [O_spi_shutdown; O_FreeMem a sizeof_device_ctx_t]).
Proof.
  cbv zeta.
  destruct (cleanup_effect (fst (UserDevInit' d device))) as (_ & Hn & _ & Hc).
  pose proof (init_ctx d device) as Ha.
  split.
  - unfold BeginIO. rewrite Hn. reflexivity.
  - rewrite Hc, Ha. reflexivity.
Qed.

End WithCard.

End InitFacts.

End LifecycleExtra.
